(** * ficha-rpg: character sheets kept as files

    A shallow embedding of [app.py], the Flask application that creates,
    lists, shows, edits and deletes role-playing character sheets, and the
    properties of its record and image stores.

    Conventions of the model.
    - A Python [str] is a Rocq [string] whose characters are the code
      points U+0000 to U+00FF (Latin-1); text with other characters is
      outside the model.  The library functions that depend on Unicode
      tables ([str.lower], [str.isspace], [str.splitlines], [int],
      [unicodedata.normalize]) are given on these 256 code points as
      CPython 3.11 has them.
    - A character document is a record with the keys [extract_character_form]
      writes; [attributes] stays a dict (an insertion-ordered association
      list).  [json.dump] followed by [json.load] is the identity on such
      documents, so a file of the data directory holds the document itself.
    - The data directory is a finite map from the file stem to the document
      of [<stem>.json]; the upload folder is a finite map from a file name to
      the file's contents.  Both hold regular files only.
    - Handlers run in a state-and-exception monad over the two directories
      and the flashed messages; [abort(404)] and a Python exception end the
      request.
    - The host is POSIX with UTF-8 file names of at most 255 bytes.  The id
      of a URL is the client's, so the test for its record file can fail
      with ENAMETOOLONG, which [Path.exists] lets through; the file names of
      the upload folder are built from stored references and generated ids
      and are taken to be within the limit, as the application writes
      them. *)

From Stdlib Require Import ZArith NArith Ascii String Bool Lia.
From Stdlib Require Import Sorting.Sorted Sorting.Permutation.
From stdpp Require Import gmap strings list fin_maps.

Local Open Scope Z_scope.

(** ** Python strings *)

Module Py.

Definition code (c : ascii) : N := N_of_ascii c.

Definition between (lo hi : N) (c : ascii) : bool :=
  ((lo <=? code c) && (code c <=? hi))%N.

Definition is_upper (c : ascii) : bool := between 65 90 c.
Definition is_lower (c : ascii) : bool := between 97 122 c.
Definition is_digit (c : ascii) : bool := between 48 57 c.

(** [str.isspace]: tab to carriage return, the four separators FS, GS,
    RS, US, the space, the next-line control U+0085 and the no-break space
    U+00A0. *)
Definition isspace (c : ascii) : bool :=
  between 9 13 c || between 28 32 c || between 133 133 c || between 160 160 c.

(** The capital letters beyond ASCII: U+00C0 to U+00DE without the
    multiplication sign U+00D7. *)
Definition is_upper_latin1 (c : ascii) : bool :=
  between 192 214 c || between 216 222 c.

(** [str.lower] on one character: every capital letter has its small
    letter 32 code points further. *)
Definition lower_char (c : ascii) : ascii :=
  if is_upper c || is_upper_latin1 c then ascii_of_N (code c + 32) else c.

(** [s.lower()] *)
Fixpoint lower (s : string) : string :=
  match s with
  | EmptyString => EmptyString
  | String c s' => String (lower_char c) (lower s')
  end.

(** [c in s] for a one-character [c] *)
Fixpoint contains (c : ascii) (s : string) : bool :=
  match s with
  | EmptyString => false
  | String a s' => Ascii.eqb a c || contains c s'
  end.

Fixpoint lstrip_with (p : ascii -> bool) (s : string) : string :=
  match s with
  | EmptyString => EmptyString
  | String c s' => if p c then lstrip_with p s' else s
  end.

Fixpoint rstrip_with (p : ascii -> bool) (s : string) : string :=
  match s with
  | EmptyString => EmptyString
  | String c s' =>
      match rstrip_with p s' with
      | EmptyString => if p c then EmptyString else String c EmptyString
      | r => String c r
      end
  end.

Definition strip_with (p : ascii -> bool) (s : string) : string :=
  rstrip_with p (lstrip_with p s).

(** [s.strip()] *)
Definition strip (s : string) : string := strip_with isspace s.

(** [s.strip(chars)] *)
Definition strip_chars (chars : string) (s : string) : string :=
  strip_with (fun c => contains c chars) s.

(** The split of [s] at its last [c], if it has one. *)
Fixpoint rsplit_last (c : ascii) (s : string) : option (string * string) :=
  match s with
  | EmptyString => None
  | String a s' =>
      match rsplit_last c s' with
      | Some (h, t) => Some (String a h, t)
      | None => if Ascii.eqb a c then Some (EmptyString, s') else None
      end
  end.

(** [s.rsplit(c, 1)]: one or two pieces. *)
Definition rsplit1 (c : ascii) (s : string) : list string :=
  match rsplit_last c s with
  | Some (h, t) => [h; t]
  | None => [s]
  end.

(** [s.replace(a, b)] for one-character [a] and [b] *)
Fixpoint replace_char (a b : ascii) (s : string) : string :=
  match s with
  | EmptyString => EmptyString
  | String c s' => String (if Ascii.eqb c a then b else c) (replace_char a b s')
  end.

(** [s.split()]: the maximal runs of characters that are no whitespace. *)
Fixpoint split (s : string) : list string :=
  match s with
  | EmptyString => []
  | String c s' =>
      if isspace c then split s'
      else match s' with
           | EmptyString => [String c EmptyString]
           | String c' _ =>
               if isspace c' then String c EmptyString :: split s'
               else match split s' with
                    | w :: ws => String c w :: ws
                    | [] => [String c EmptyString]
                    end
           end
  end.

(** [sep.join(l)] *)
Fixpoint join (sep : string) (l : list string) : string :=
  match l with
  | [] => EmptyString
  | [w] => w
  | w :: ws => w +:+ sep +:+ join sep ws
  end.

(** [re.sub] of a one-character class by the empty string keeps the
    characters outside the class. *)
Fixpoint keep (p : ascii -> bool) (s : string) : string :=
  match s with
  | EmptyString => EmptyString
  | String c s' => if p c then String c (keep p s') else keep p s'
  end.

(** [bool(s)] *)
Definition truthy (s : string) : bool :=
  match s with EmptyString => false | _ => true end.

(** *** [int(s)]

    Optional whitespace, an optional sign, then decimal digits in which
    single underscores may separate digits; whitespace may follow.  The
    whitespace of the number parser is tab to carriage return and the
    space, and the whitespace beyond ASCII (U+0085, U+00A0), which [int]
    turns into spaces first; the separators FS to US are none for it.  More
    than 4300 digits are refused.  [None] stands for [ValueError]. *)
Definition int_space (c : ascii) : bool :=
  between 9 13 c || between 32 32 c || between 133 133 c || between 160 160 c.

Definition int_max_str_digits : nat := 4300.

Fixpoint count_digits (s : string) : nat :=
  match s with
  | EmptyString => 0%nat
  | String c s' => ((if is_digit c then 1 else 0) + count_digits s')%nat
  end.

Definition digit_value (c : ascii) : Z := Z.of_N (code c) - 48.

Fixpoint int_digits (acc : Z) (after_digit : bool) (s : string) : option Z :=
  match s with
  | EmptyString => if after_digit then Some acc else None
  | String c s' =>
      if is_digit c then int_digits (acc * 10 + digit_value c) true s'
      else if Ascii.eqb c "_" then
             if after_digit then int_digits acc false s' else None
           else None
  end.

Definition int (s : string) : option Z :=
  let unsigned r :=
    if (int_max_str_digits <? count_digits r)%nat then None
    else int_digits 0 false r in
  match strip_with int_space s with
  | String "-" r => Z.opp <$> unsigned r
  | String "+" r => unsigned r
  | r => unsigned r
  end.

End Py.

(** ** Library functions the handlers call *)

(** [werkzeug.utils.secure_filename] on a POSIX host ([os.sep] is the slash,
    there is no [os.path.altsep], and the Windows device names are not
    special). *)
Definition is_ascii (c : ascii) : bool := (Py.code c <? 128)%N.

(** [unicodedata.normalize("NFKD", c).encode("ascii", "ignore")] for one
    character: an ASCII character stays; a character of U+0080 to U+00FF
    leaves the ASCII part of its compatibility decomposition, which is
    empty for most. *)
Definition nfkd_ascii_char (c : ascii) : string :=
  if is_ascii c then String c EmptyString
  else
    match Py.code c with
    | 160 | 168 | 175 | 180 | 184 => " "
    | 170 | 224 | 225 | 226 | 227 | 228 | 229 => "a"
    | 178 => "2"
    | 179 => "3"
    | 185 => "1"
    | 186 | 242 | 243 | 244 | 245 | 246 => "o"
    | 188 => "14"
    | 189 => "12"
    | 190 => "34"
    | 192 | 193 | 194 | 195 | 196 | 197 => "A"
    | 199 => "C"
    | 200 | 201 | 202 | 203 => "E"
    | 204 | 205 | 206 | 207 => "I"
    | 209 => "N"
    | 210 | 211 | 212 | 213 | 214 => "O"
    | 217 | 218 | 219 | 220 => "U"
    | 221 => "Y"
    | 231 => "c"
    | 232 | 233 | 234 | 235 => "e"
    | 236 | 237 | 238 | 239 => "i"
    | 241 => "n"
    | 249 | 250 | 251 | 252 => "u"
    | 253 | 255 => "y"
    | _ => ""
    end%N.

(** The same for a string: decomposition goes character by character,
    and the reordering of combining marks touches no ASCII character. *)
Fixpoint nfkd_ascii (s : string) : string :=
  match s with
  | EmptyString => EmptyString
  | String c s' => nfkd_ascii_char c +:+ nfkd_ascii s'
  end.

Definition filename_char (c : ascii) : bool :=
  Py.is_upper c || Py.is_lower c || Py.is_digit c || Py.contains c "_.-".

Definition secure_filename (filename : string) : string :=
  let filename := nfkd_ascii filename in
  let filename := Py.replace_char "/" " " filename in
  Py.strip_chars "._"
    (Py.keep filename_char (Py.join "_" (Py.split filename))).

(** [s.split(c)]: the pieces between the occurrences of [c]. *)
Fixpoint split_on (c : ascii) (s : string) : list string :=
  match s with
  | EmptyString => [EmptyString]
  | String a s' =>
      if Ascii.eqb a c then EmptyString :: split_on c s'
      else match split_on c s' with
           | w :: ws => String a w :: ws
           | [] => [String a EmptyString]
           end
  end.

(** [Path(p).name]: the last component of a POSIX path, where empty and
    single-dot components do not count; empty when there is none. *)
Definition path_name (p : string) : string :=
  default ""
    (last (List.filter (fun part => negb (String.eqb part "") && negb (String.eqb part "."))
                       (split_on "/" p))).

(** [sorted(l, key=key)] on string keys: the stable sort, by insertion.
    Python compares strings by code point, as [String.leb] does. *)
Fixpoint insert_by {A} (key : A -> string) (x : A) (l : list A) : list A :=
  match l with
  | [] => [x]
  | y :: l' => if String.leb (key x) (key y) then x :: l else y :: insert_by key x l'
  end.

Definition sorted {A} (key : A -> string) (l : list A) : list A :=
  foldr (insert_by key) [] l.

(** ** Data model *)

(** A dict with string keys, in insertion order: [d[k] = v] and [d.get(k)]. *)
Fixpoint dict_set {V} (k : string) (v : V) (d : list (string * V)) : list (string * V) :=
  match d with
  | [] => [(k, v)]
  | (k', v') :: d' =>
      if String.eqb k' k then (k', v) :: d' else (k', v') :: dict_set k v d'
  end.

Fixpoint dict_get {V} (k : string) (d : list (string * V)) : option V :=
  match d with
  | [] => None
  | (k', v) :: d' => if String.eqb k' k then Some v else dict_get k d'
  end.


(** The character document.  [id] is the key [load_character] adds; the
    documents [extract_character_form] builds do not have it. *)
Record character := {
  id : option string;
  name : string;
  race : string;
  character_class : string;
  background : string;
  level : string;
  hit_points : string;
  armor_class : string;
  speed : string;
  attributes : list (string * Z);
  proficiencies : string;
  equipment : string;
  spells : string;
  notes : string;
  image : option string
}.

(** [data["id"] = character_id] *)
Definition set_id (character_id : string) (data : character) : character :=
  {| id := Some character_id; name := name data; race := race data;
     character_class := character_class data; background := background data;
     level := level data; hit_points := hit_points data;
     armor_class := armor_class data; speed := speed data;
     attributes := attributes data; proficiencies := proficiencies data;
     equipment := equipment data; spells := spells data; notes := notes data;
     image := image data |}.

(** [character["image"] = img] *)
Definition set_image (img : option string) (data : character) : character :=
  {| id := id data; name := name data; race := race data;
     character_class := character_class data; background := background data;
     level := level data; hit_points := hit_points data;
     armor_class := armor_class data; speed := speed data;
     attributes := attributes data; proficiencies := proficiencies data;
     equipment := equipment data; spells := spells data; notes := notes data;
     image := img |}.

Definition ATTRIBUTE_FIELDS : list (string * string) :=
  [ ("strength", "Força"); ("dexterity", "Destreza");
    ("constitution", "Constituição"); ("intelligence", "Inteligência");
    ("wisdom", "Sabedoria"); ("charisma", "Carisma") ].

Definition ALLOWED_EXTENSIONS : list string := ["png"; "jpg"; "jpeg"; "gif"; "webp"].

(** ** Requests, responses and the state of the application *)

Record file_storage := { filename : string; stream : string }.

(** The form and the files of a request are multi-dicts: [get] gives the
    first value of a key. *)
Record request := {
  form : list (string * string);
  files : list (string * file_storage)
}.

Definition form_get (r : request) (key fallback : string) : string :=
  default fallback (dict_get key (form r)).

Definition files_get (r : request) (key : string) : option file_storage :=
  dict_get key (files r).

Inductive category := error | success | info.

Inductive endpoint :=
  | index_url
  | new_character_url
  | view_character_url (character_id : string)
  | edit_character_url (character_id : string)
  | create_character_url
  | update_character_url (character_id : string).

Inductive response :=
  | redirect (target : endpoint)
  | render_index (characters : list character)
  | render_view (c : character)
  | render_form (c : character) (form_action : endpoint) (submit_label : string).

(** The files of the application and the messages flashed so far. *)
Record state := {
  data_dir : gmap string character;
  upload_folder : gmap string string;
  flashes : list (string * category)
}.

Inductive exn := IndexError | OSError.

Inductive outcome (A : Type) :=
  | Ok (a : A)
  | Abort (status : nat)
  | Raise (e : exn).
Arguments Ok {A} a.
Arguments Abort {A} status.
Arguments Raise {A} e.

(** ** The monad of the handlers *)

Definition M (A : Type) : Type := state -> outcome A * state.

Definition ret {A} (a : A) : M A := fun st => (Ok a, st).

Definition bind {A B} (m : M A) (k : A -> M B) : M B :=
  fun st =>
    match m st with
    | (Ok a, st') => k a st'
    | (Abort status, st') => (Abort status, st')
    | (Raise e, st') => (Raise e, st')
    end.

Notation "'let*' x ':=' m 'in' k" := (bind m (fun x => k))
  (at level 10, x name, m at level 100, k at level 200).
Notation "m ;;; k" := (bind m (fun _ => k))
  (at level 100, k at level 200, right associativity).

Definition abort {A} (status : nat) : M A := fun st => (Abort status, st).
Definition raise {A} (e : exn) : M A := fun st => (Raise e, st).

Definition flash (message : string) (c : category) : M unit :=
  fun st => (Ok tt, {| data_dir := data_dir st; upload_folder := upload_folder st;
                       flashes := flashes st ++ [(message, c)] |}).

(** [json.dump(character, fp)] on [data_dir / f"{character_id}.json"] *)
Definition write_json (character_id : string) (c : character) : M unit :=
  fun st => (Ok tt, {| data_dir := <[character_id := c]> (data_dir st);
                       upload_folder := upload_folder st; flashes := flashes st |}).

(** [if path.exists(): path.unlink()] in the data directory *)
Definition unlink_json (character_id : string) : M unit :=
  fun st =>
    match data_dir st !! character_id with
    | Some _ => (Ok tt, {| data_dir := delete character_id (data_dir st);
                           upload_folder := upload_folder st; flashes := flashes st |})
    | None => (Ok tt, st)
    end.

(** [uploaded_file.save(UPLOAD_FOLDER / final_name)] *)
Definition save_upload (final_name contents : string) : M unit :=
  fun st => (Ok tt, {| data_dir := data_dir st;
                       upload_folder := <[final_name := contents]> (upload_folder st);
                       flashes := flashes st |}).

(** [if p.exists(): p.unlink()] for [p = UPLOAD_FOLDER / file_name] *)
Definition unlink_upload (file_name : string) : M unit :=
  fun st =>
    match upload_folder st !! file_name with
    | Some _ => (Ok tt, {| data_dir := data_dir st;
                           upload_folder := delete file_name (upload_folder st);
                           flashes := flashes st |})
    | None => (Ok tt, st)
    end.

(** [bool(v)] for [v] a string or [None] *)
Definition truthy_opt (v : option string) : bool :=
  match v with Some s => Py.truthy s | None => false end.

(** ** The application *)

(** The length of a file name in bytes, in UTF-8. *)
Fixpoint utf8_length (s : string) : nat :=
  match s with
  | EmptyString => 0%nat
  | String c s' => ((if is_ascii c then 1 else 2) + utf8_length s')%nat
  end.

Definition NAME_MAX : nat := 255.

(** The stat of this file name fails with ENAMETOOLONG.  (A name with a
    NUL character fails earlier, with the [ValueError] that [exists]
    answers by [False].) *)
Definition name_too_long (file_name : string) : bool :=
  (NAME_MAX <? utf8_length file_name)%nat && negb (Py.contains "000" file_name).

(** [path.exists()] for [path = data_dir / f"{character_id}.json"]: true
    for a file of the directory; for a name that is none, [OSError] when
    the name is too long for the host and false otherwise. *)
Definition json_exists (character_id : string) : M bool :=
  fun st =>
    match data_dir st !! character_id with
    | Some _ => (Ok true, st)
    | None =>
        if name_too_long (character_id +:+ ".json") then (Raise OSError, st)
        else (Ok false, st)
    end.

(** [json.load] of the record file; opening a file that is not there
    raises. *)
Definition read_json (character_id : string) : M character :=
  fun st =>
    match data_dir st !! character_id with
    | Some data => (Ok data, st)
    | None => (Raise OSError, st)
    end.

Definition load_character (character_id : string) : M character :=
  let* found := json_exists character_id in
  if negb found then abort 404%nat
  else
    let* data := read_json character_id in
    ret (set_id character_id data).

(** [data_dir.glob("*.json")] yields the files in the order of the
    directory; the model takes the order of [map_to_list]. *)
Definition load_characters : M (list character) :=
  fun st =>
    let characters :=
      (fun '(stem, data) => set_id stem data) <$> map_to_list (data_dir st) in
    (Ok (sorted (fun item => Py.lower (name item)) characters), st).

Definition allowed_file (filename : string) : bool :=
  Py.contains "." filename &&
  match Py.rsplit1 "." filename !! 1%nat with
  | Some ext => bool_decide (Py.lower ext ∈ ALLOWED_EXTENSIONS)
  | None => false
  end.

Definition handle_image_upload (r : request) (character_id : string)
    (previous_image : option string) : M (option string) :=
  match files_get r "image" with
  | None => ret previous_image
  | Some uploaded_file =>
      if negb (Py.truthy (filename uploaded_file)) then ret previous_image
      else if negb (allowed_file (filename uploaded_file)) then
        flash "Formato de imagem inválido. Use png, jpg, jpeg, gif ou webp." error ;;;
        ret previous_image
      else
        let filename := secure_filename (filename uploaded_file) in
        match Py.rsplit1 "." filename !! 1%nat with
        | None => raise IndexError
        | Some ext =>
            let extension := Py.lower ext in
            let final_name := character_id +:+ "." +:+ extension in
            save_upload final_name (stream uploaded_file) ;;;
            (if truthy_opt previous_image
                && negb (bool_decide (previous_image = Some ("uploads/" +:+ final_name)))
             then unlink_upload (path_name (default "" previous_image))
             else ret tt) ;;;
            ret (Some ("uploads/" +:+ final_name))
        end
  end.

Definition extract_character_form (r : request) (existing : option character) : character :=
  let attributes :=
    fold_left
      (fun (attributes : list (string * Z)) '(key, _label) =>
         let raw_value := form_get r ("attr_" +:+ key) "" in
         match Py.int raw_value with
         | Some n => dict_set key n attributes
         | None => dict_set key 0 attributes
         end)
      ATTRIBUTE_FIELDS [] in
  {| id := None;
     name := Py.strip (form_get r "name" "");
     race := Py.strip (form_get r "race" "");
     character_class := Py.strip (form_get r "character_class" "");
     background := Py.strip (form_get r "background" "");
     level := (let l := Py.strip (form_get r "level" "1") in
               if Py.truthy l then l else "1");
     hit_points := Py.strip (form_get r "hit_points" "");
     armor_class := Py.strip (form_get r "armor_class" "");
     speed := Py.strip (form_get r "speed" "");
     attributes := attributes;
     proficiencies := form_get r "proficiencies" "";
     equipment := form_get r "equipment" "";
     spells := form_get r "spells" "";
     notes := form_get r "notes" "";
     image := match existing with Some e => image e | None => None end |}.

Definition index : M response :=
  let* characters := load_characters in
  ret (render_index characters).

Definition new_character : M response :=
  let blank_character :=
    {| id := None; name := ""; race := ""; character_class := ""; background := "";
       level := "1"; hit_points := ""; armor_class := ""; speed := "";
       attributes := (fun '(key, _) => (key, 10)) <$> ATTRIBUTE_FIELDS;
       proficiencies := ""; equipment := ""; spells := ""; notes := "";
       image := None |} in
  ret (render_form blank_character create_character_url "Criar personagem").

(** [uuid4_hex] is the value of [uuid.uuid4().hex] for this request. *)
Definition create_character (uuid4_hex : string) (r : request) : M response :=
  let character_id := uuid4_hex in
  let character := extract_character_form r None in
  if negb (Py.truthy (name character)) then
    flash "O nome do personagem é obrigatório." error ;;;
    ret (redirect new_character_url)
  else
    let* img := handle_image_upload r character_id None in
    let character := set_image img character in
    write_json character_id character ;;;
    flash "Personagem criado com sucesso!" success ;;;
    ret (redirect (view_character_url character_id)).

Definition view_character (character_id : string) : M response :=
  let* character := load_character character_id in
  ret (render_view character).

Definition edit_character (character_id : string) : M response :=
  let* character := load_character character_id in
  ret (render_form character (update_character_url character_id) "Salvar alterações").

Definition update_character (character_id : string) (r : request) : M response :=
  let* existing := load_character character_id in
  let character := extract_character_form r (Some existing) in
  if negb (Py.truthy (name character)) then
    flash "O nome do personagem é obrigatório." error ;;;
    ret (redirect (edit_character_url character_id))
  else
    let* img := handle_image_upload r character_id (image existing) in
    let character := set_image img character in
    write_json character_id character ;;;
    flash "Personagem atualizado!" success ;;;
    ret (redirect (view_character_url character_id)).

Definition delete_character (character_id : string) : M response :=
  let* character := load_character character_id in
  unlink_json character_id ;;;
  (if truthy_opt (image character)
   then unlink_upload (path_name (default "" (image character)))
   else ret tt) ;;;
  flash "Personagem removido." info ;;;
  ret (redirect index_url).

(** ** The template filter and the routes *)

(** [markupsafe.escape] on a string: the five markup characters become
    entities (the ampersand first, so the result is the character-wise
    replacement). *)
Definition escape_char (c : ascii) : string :=
  if Ascii.eqb c "&" then "&amp;"
  else if Ascii.eqb c ">" then "&gt;"
  else if Ascii.eqb c "<" then "&lt;"
  else if Ascii.eqb c "'" then "&#39;"
  else if Ascii.eqb c "034" then "&#34;"
  else String c EmptyString.

Fixpoint escape (s : string) : string :=
  match s with
  | EmptyString => EmptyString
  | String c s' => escape_char c +:+ escape s'
  end.

(** The line boundaries of [str.splitlines]: line feed, vertical tab,
    form feed, carriage return, the separators FS, GS, RS, and the
    next-line control U+0085. *)
Definition is_linebreak (c : ascii) : bool :=
  Py.between 10 13 c || Py.between 28 30 c || Py.between 133 133 c.

(** [s.splitlines()]: the lines without their ends; a carriage return
    followed by a line feed is one boundary; no empty line after a final
    boundary. *)
Fixpoint splitlines (s : string) : list string :=
  match s with
  | EmptyString => []
  | String c s' =>
      if is_linebreak c then
        match s' with
        | EmptyString => [EmptyString]
        | String c' s'' =>
            if Ascii.eqb c "013" && Ascii.eqb c' "010"
            then EmptyString :: splitlines s''
            else EmptyString :: splitlines s'
        end
      else match splitlines s' with
           | [] => [String c EmptyString]
           | w :: ws => String c w :: ws
           end
  end.

(** The template filter [nl2br]; the result is the content of the
    [Markup]. *)
Definition nl2br_filter (value : option string) : string :=
  match value with
  | None => ""
  | Some v =>
      if negb (Py.truthy v) then ""
      else let escaped_value := escape v in
           Py.join "<br>" (splitlines escaped_value)
  end.

(** The routes of the application, with what each request brings: the
    id of the URL, the form and files, and for a create the id that
    [uuid.uuid4().hex] gives. *)
Inductive http_request :=
  | GET_index
  | GET_new_character
  | POST_create_character (uuid4_hex : string) (r : request)
  | GET_view_character (character_id : string)
  | GET_edit_character (character_id : string)
  | POST_update_character (character_id : string) (r : request)
  | POST_delete_character (character_id : string).

Definition dispatch (q : http_request) : M response :=
  match q with
  | GET_index => index
  | GET_new_character => new_character
  | POST_create_character uuid4_hex r => create_character uuid4_hex r
  | GET_view_character character_id => view_character character_id
  | GET_edit_character character_id => edit_character character_id
  | POST_update_character character_id r => update_character character_id r
  | POST_delete_character character_id => delete_character character_id
  end.

(** The state after a sequence of requests; a request that ends in 404 or
    in an exception leaves the state it reached. *)
Fixpoint serve (qs : list http_request) (st : state) : state :=
  match qs with
  | [] => st
  | q :: qs' => serve qs' (snd (dispatch q st))
  end.

(** ** Vocabulary of the properties *)

Fixpoint all_chars (p : ascii -> bool) (s : string) : bool :=
  match s with
  | EmptyString => true
  | String c s' => p c && all_chars p s'
  end.

Definition first_char (s : string) : option ascii :=
  match s with EmptyString => None | String c _ => Some c end.

Fixpoint last_char (s : string) : option ascii :=
  match s with
  | EmptyString => None
  | String c EmptyString => Some c
  | String _ s' => last_char s'
  end.

(** [t] is [s] without the whitespace around it. *)
Definition trimmed_of (s t : string) : Prop :=
  (exists before after,
      s = before +:+ t +:+ after
      /\ all_chars Py.isspace before = true
      /\ all_chars Py.isspace after = true)
  /\ (forall c, first_char t = Some c -> Py.isspace c = false)
  /\ (forall c, last_char t = Some c -> Py.isspace c = false).


(** The order of [load_characters]: by lower-cased name. *)
Definition name_le (a b : character) : Prop :=
  String.leb (Py.lower (name a)) (Py.lower (name b)) = true.


Definition name_required : string * category :=
  ("O nome do personagem é obrigatório.", error).
Definition invalid_image_format : string * category :=
  ("Formato de imagem inválido. Use png, jpg, jpeg, gif ou webp.", error).

(** The request carries no upload: no [image] file, or one without a
    file name. *)
Definition no_upload (r : request) : Prop :=
  match files_get r "image" with
  | None => True
  | Some uploaded_file => filename uploaded_file = ""
  end.

(** An ASCII letter. *)
Definition letter (c : ascii) : bool := Py.is_upper c || Py.is_lower c.

(** What [secure_filename] leaves alone, wherever it stands. *)
Definition kept_char (c : ascii) : bool :=
  is_ascii c && negb (Ascii.eqb c "/") && negb (Py.isspace c) && filename_char c.

(** A fact about characters that holds by inspection of all 256. *)
Ltac by_cases_on_char c :=
  destruct c as [[] [] [] [] [] [] [] []]; vm_compute; intros; congruence.

(** A segment of a URL path, as the route converter of [<character_id>]
    takes it: not empty and without slash.  A hexadecimal uuid is one. *)
Definition path_segment (s : string) : bool :=
  Py.truthy s && negb (Py.contains "/" s).

(** The ids a request brings are path segments. *)
Definition routable (q : http_request) : Prop :=
  match q with
  | GET_index | GET_new_character => True
  | POST_create_character character_id _
  | GET_view_character character_id
  | GET_edit_character character_id
  | POST_update_character character_id _
  | POST_delete_character character_id => path_segment character_id = true
  end.

(** An image reference of [character_id] is in order when it is none, or
    names that character's file with an allowed extension in the upload
    folder, and the file exists. *)
Definition reference_ok (character_id : string) (img : option string)
    (uploads : gmap string string) : Prop :=
  match img with
  | None => True
  | Some img =>
      exists ext, ext ∈ ALLOWED_EXTENSIONS
                  /\ img = "uploads/" +:+ character_id +:+ "." +:+ ext
                  /\ is_Some (uploads !! (character_id +:+ "." +:+ ext))
  end.

(** The invariant of the two directories: every record file has a path
    segment as stem, holds no [id] key, and its image reference is in
    order. *)
Definition store_ok (st : state) : Prop :=
  forall character_id c,
    data_dir st !! character_id = Some c ->
    path_segment character_id = true
    /\ id c = None
    /\ reference_ok character_id (image c) (upload_folder st).

(** No markup character and no line boundary. *)
Definition html_safe_char (c : ascii) : bool :=
  negb (Ascii.eqb c "<") && negb (Ascii.eqb c ">") && negb (Ascii.eqb c "'")
  && negb (Ascii.eqb c "034") && negb (is_linebreak c).

(** The request's upload passes the allow-list and loses its dot when
    sanitised. *)
Definition upload_loses_dot (r : request) : Prop :=
  exists f, files_get r "image" = Some f
            /\ allowed_file (filename f) = true
            /\ Py.rsplit1 "." (secure_filename (filename f)) !! 1%nat = None.

(** The id of the record a request may write or delete. *)
Definition target (q : http_request) : option string :=
  match q with
  | POST_create_character character_id _
  | POST_update_character character_id _
  | POST_delete_character character_id => Some character_id
  | _ => None
  end.

(** The id in the URL of a request. *)
Definition url_id (q : http_request) : option string :=
  match q with
  | GET_view_character character_id
  | GET_edit_character character_id
  | POST_update_character character_id _
  | POST_delete_character character_id => Some character_id
  | _ => None
  end.

(** The routes registered without [methods=["POST"]]. *)
Definition is_get (q : http_request) : bool :=
  match q with
  | GET_index | GET_new_character | GET_view_character _ | GET_edit_character _ => true
  | _ => false
  end.

(** A character that [secure_filename] keeps and does not strip from the
    ends: an ASCII letter, a digit or the hyphen. *)
Definition solid (c : ascii) : bool :=
  filename_char c && negb (Py.contains c "._").

(** What a handler answers for an id that has no record file: the
    [OSError] of the existence test when the file name is too long, and
    404 otherwise. *)
Definition no_record {A} (cid : string) : outcome A :=
  if name_too_long (cid +:+ ".json") then Raise OSError else Abort 404%nat.


(** The document [c] has every key of [data] with its value, the id
    apart. *)
Definition same_document (c data : character) : Prop :=
  name c = name data /\ race c = race data
  /\ character_class c = character_class data /\ background c = background data
  /\ level c = level data /\ hit_points c = hit_points data
  /\ armor_class c = armor_class data /\ speed c = speed data
  /\ attributes c = attributes data /\ proficiencies c = proficiencies data
  /\ equipment c = equipment data /\ spells c = spells data
  /\ notes c = notes data /\ image c = image data.

(** Case folding as the words "without regard to case" have it: each
    capital letter stands for its small letter.  The capital letters are
    those of the alphabet and the accented ones, U+00C0 to U+00DE without
    the multiplication sign, whose small letters are 32 code points
    further. *)
Fixpoint small_of_capital (capitals smalls : string) (c : ascii) : ascii :=
  match capitals, smalls with
  | String k capitals', String s smalls' =>
      if Ascii.eqb c k then s else small_of_capital capitals' smalls' c
  | _, _ => c
  end.

Definition fold_case_char (c : ascii) : ascii :=
  let n := N_of_ascii c in
  if ((192 <=? n) && (n <=? 222) && negb (n =? 215))%N then ascii_of_N (n + 32)
  else small_of_capital "ABCDEFGHIJKLMNOPQRSTUVWXYZ" "abcdefghijklmnopqrstuvwxyz" c.

Fixpoint fold_case (s : string) : string :=
  match s with
  | EmptyString => EmptyString
  | String c s' => String (fold_case_char c) (fold_case s')
  end.

(** [s] comes no later than [t] when case is disregarded. *)
Definition caseless_le (s t : string) : Prop :=
  String.leb (fold_case s) (fold_case t) = true.

(** ** Sample data *)

Fixpoint repeat_char (c : ascii) (n : nat) : string :=
  match n with
  | O => EmptyString
  | S n' => String c (repeat_char c n')
  end.

(** The letter e with acute accent, U+00E9, as a string. *)
Definition e_acute : string := String "233" EmptyString.

(** An id of 300 characters. *)
Definition long_id : string := repeat_char "a" 300.


Definition empty_state : state :=
  {| data_dir := ∅; upload_folder := ∅; flashes := [] |}.

Definition sample_request (character_name file_name : string) : request :=
  {| form := [("name", character_name); ("race", " Elfo "); ("level", " ");
              ("attr_strength", "abc"); ("attr_dexterity", "15");
              ("notes", " x ")];
     files := [("image", {| filename := file_name; stream := "bytes" |})] |}.

Definition anna : character :=
  set_image (Some "uploads/a1.png") (extract_character_form (sample_request "Anna" "") None).

(** One stored character, with its portrait. *)
Definition anna_state : state :=
  {| data_dir := {[ "a1" := anna ]};
     upload_folder := {[ "a1.png" := "old bytes" ]};
     flashes := [] |}.

Definition named (character_name : string) : character :=
  extract_character_form (sample_request character_name "") None.

(** Three stored characters, named as in the listing example. *)
Definition three_state : state :=
  {| data_dir := {[ "f1" := named "zara"; "f2" := named "Anna"; "f3" := named "bob" ]};
     upload_folder := ∅;
     flashes := [] |}.

(** An image reference as [handle_image_upload] writes it: the upload
    folder's prefix and a file name. *)
Definition image_reference (img : string) : Prop :=
  img = "uploads/" +:+ path_name img.

(** ** Properties *)

(** *** Python strings *)

Example lower_mixed_case : Py.lower "Anna.PNG" = "anna.png".
Proof. reflexivity. Qed.

Example strip_keeps_inner_space : Py.strip "  a b  " = "a b".
Proof. reflexivity. Qed.

Example split_on_whitespace : Py.split "  ab  c d " = ["ab"; "c"; "d"].
Proof. reflexivity. Qed.

Example rsplit1_pieces :
  Py.rsplit1 "." "a.b.c" = ["a.b"; "c"] /\ Py.rsplit1 "." "abc" = ["abc"].
Proof. split; reflexivity. Qed.

(** The tables of the characters U+0000 to U+00FF, as the interpreter
    has them. *)
Example isspace_table :
  List.filter (fun n => Py.isspace (ascii_of_nat n)) (seq 0%nat 256%nat)
  = ([9; 10; 11; 12; 13; 28; 29; 30; 31; 32; 133; 160])%nat.
Proof. vm_compute. reflexivity. Qed.

Example is_linebreak_table :
  List.filter (fun n => is_linebreak (ascii_of_nat n)) (seq 0%nat 256%nat)
  = ([10; 11; 12; 13; 28; 29; 30; 133])%nat.
Proof. vm_compute. reflexivity. Qed.

Example lower_char_table :
  List.filter (fun '(n, m) => negb (Nat.eqb n m))
    ((fun n => (n, nat_of_ascii (Py.lower_char (ascii_of_nat n)))) <$> seq 0%nat 256%nat)
  = (fun n => (n, n + 32)%nat) <$> (seq 65 26 ++ seq 192 23 ++ seq 216 7)%nat.
Proof. vm_compute. reflexivity. Qed.

Example nfkd_ascii_char_table :
  List.filter (fun '(n, folded) => negb (String.eqb folded ""))
    ((fun n => (n, nfkd_ascii_char (ascii_of_nat n))) <$> seq 128%nat 128%nat)
  = ([(160, " "); (168, " "); (170, "a"); (175, " "); (178, "2"); (179, "3");
     (180, " "); (184, " "); (185, "1"); (186, "o"); (188, "14"); (189,
     "12"); (190, "34"); (192, "A"); (193, "A"); (194, "A"); (195, "A");
     (196, "A"); (197, "A"); (199, "C"); (200, "E"); (201, "E"); (202, "E");
     (203, "E"); (204, "I"); (205, "I"); (206, "I"); (207, "I"); (209, "N");
     (210, "O"); (211, "O"); (212, "O"); (213, "O"); (214, "O"); (217, "U");
     (218, "U"); (219, "U"); (220, "U"); (221, "Y"); (224, "a"); (225, "a");
     (226, "a"); (227, "a"); (228, "a"); (229, "a"); (231, "c"); (232, "e");
     (233, "e"); (234, "e"); (235, "e"); (236, "i"); (237, "i"); (238, "i");
     (239, "i"); (241, "n"); (242, "o"); (243, "o"); (244, "o"); (245, "o");
     (246, "o"); (249, "u"); (250, "u"); (251, "u"); (252, "u"); (253, "y");
     (255, "y")])%nat.
Proof. vm_compute. reflexivity. Qed.

Example nfkd_ascii_on_ascii :
  Forall (fun n => nfkd_ascii_char (ascii_of_nat n) = String (ascii_of_nat n) "") (seq 0%nat 128%nat).
Proof. vm_compute. repeat constructor. Qed.

Example int_literals :
  Py.int " -1_0 " = Some (-10) /\ Py.int "abc" = None /\ Py.int "15" = Some 15
  /\ Py.int "" = None /\ Py.int "1__0" = None /\ Py.int "+7" = Some 7
  /\ Py.int "1.5" = None /\ Py.int "- 1" = None.
Proof. repeat split; reflexivity. Qed.

Example int_beyond_ascii :
  Py.int (String "160" "15") = Some 15 /\ Py.int (String "1" (String "5" (String "133" ""))) = Some 15
  /\ Py.int (String "028" "15") = None /\ Py.int (String "178" "") = None
  /\ Py.int (String "1" (String "160" "5")) = None.
Proof. repeat split; reflexivity. Qed.

Example int_digit_limit :
  Py.int (repeat_char "9" 4301) = None /\ Py.int (repeat_char "0" 4301) = None
  /\ Py.int (repeat_char "0" 4300) = Some 0
  /\ Py.int (repeat_char "9" 4300) <> None.
Proof.
  split; [vm_compute; reflexivity|]. split; [vm_compute; reflexivity|].
  split; [vm_compute; reflexivity|]. vm_compute. discriminate.
Qed.

Example strip_no_break_space :
  Py.strip (String "160" (String "A" (String "133" ""))) = "A"
  /\ Py.lower (String "201" "Z") = String "233" "z".
Proof. split; reflexivity. Qed.

Example secure_filename_accents :
  secure_filename (String "233" ".png") = "e.png"
  /\ secure_filename (String "231" (String "227" "o.png")) = "cao.png"
  /\ secure_filename (String "182" ".png") = "png"
  /\ secure_filename (String "188" (String "160" "x.png")) = "14_x.png".
Proof. repeat split; reflexivity. Qed.

Example secure_filename_examples :
  secure_filename "My Photo.JPG" = "My_Photo.JPG"
  /\ secure_filename "../../etc/pass wd.PNG" = "etc_pass_wd.PNG"
  /\ secure_filename "._.png" = "png"
  /\ secure_filename "a.png" = "a.png".
Proof. repeat split; reflexivity. Qed.

Example path_name_examples :
  path_name "uploads/a1.png" = "a1.png" /\ path_name "a/b/./" = "b"
  /\ path_name "/" = "" /\ path_name "a1.png" = "a1.png".
Proof. repeat split; reflexivity. Qed.

Lemma app_cons (a : ascii) (s t : string) : String a s +:+ t = String a (s +:+ t).
Proof. reflexivity. Qed.

Lemma app_nil_l (s : string) : "" +:+ s = s.
Proof. reflexivity. Qed.

Lemma app_nil_r (s : string) : s +:+ "" = s.
Proof. induction s; [done|]. rewrite app_cons. by f_equal. Qed.

Lemma app_empty_r (s t : string) : s +:+ t = "" -> t = "".
Proof. destruct s; [done|]. by rewrite app_cons. Qed.

Lemma app_assoc_string (a b c : string) : (a +:+ b) +:+ c = a +:+ b +:+ c.
Proof. induction a; [done|]. rewrite !app_cons. by f_equal. Qed.

Lemma lstrip_with_spec p s :
  exists before, s = before +:+ Py.lstrip_with p s
    /\ all_chars p before = true
    /\ (forall c, first_char (Py.lstrip_with p s) = Some c -> p c = false).
Proof.
  induction s as [|a s IH]; simpl.
  - exists ""; repeat split; auto. discriminate.
  - destruct (p a) eqn:Hp.
    + destruct IH as (b & Hs & Hb & Hf).
      exists (String a b); repeat split; auto.
      * rewrite app_cons. by f_equal.
      * simpl. by rewrite Hp, Hb.
    + exists ""; repeat split; auto. intros c [= <-]; done.
Qed.

Lemma rstrip_with_spec p s :
  exists after, s = Py.rstrip_with p s +:+ after
    /\ all_chars p after = true
    /\ (forall c, last_char (Py.rstrip_with p s) = Some c -> p c = false).
Proof.
  induction s as [|a s IH]; simpl.
  - exists ""; repeat split; auto. discriminate.
  - destruct IH as (b & Hs & Hb & Hl).
    destruct (Py.rstrip_with p s) as [|c r] eqn:Hr.
    + rewrite app_nil_l in Hs. subst b.
      destruct (p a) eqn:Hp.
      * exists (String a s); repeat split; auto.
        simpl. by rewrite Hp, Hb.
      * exists s; repeat split; auto.
        intros c [= <-]; done.
    + exists b; repeat split; auto.
      rewrite app_cons. by f_equal.
Qed.

Lemma rstrip_with_first p s c :
  first_char (Py.rstrip_with p s) = Some c -> first_char s = Some c.
Proof.
  destruct s as [|a s]; simpl; [done|].
  destruct (Py.rstrip_with p s); [destruct (p a)|]; simpl; done.
Qed.

Lemma strip_with_spec p s :
  (exists before after,
      s = before +:+ Py.strip_with p s +:+ after
      /\ all_chars p before = true /\ all_chars p after = true)
  /\ (forall c, first_char (Py.strip_with p s) = Some c -> p c = false)
  /\ (forall c, last_char (Py.strip_with p s) = Some c -> p c = false).
Proof.
  unfold Py.strip_with.
  destruct (lstrip_with_spec p s) as (b & Hs & Hb & Hf).
  destruct (rstrip_with_spec p (Py.lstrip_with p s)) as (a & Hs' & Ha & Hl).
  split; [|split].
  - exists b, a. split; [|done]. by rewrite <- Hs', <- Hs.
  - intros c Hc. apply Hf. by eapply rstrip_with_first.
  - done.
Qed.

Lemma strip_trimmed s : trimmed_of s (Py.strip s).
Proof. apply strip_with_spec. Qed.

(** *** The form codec *)



(** The fields [extract_character_form] strips, and those it takes as
    they were submitted. *)
Lemma extract_fields (r : request) (existing : option character) :
  let c := extract_character_form r existing in
  name c = Py.strip (form_get r "name" "")
  /\ race c = Py.strip (form_get r "race" "")
  /\ character_class c = Py.strip (form_get r "character_class" "")
  /\ background c = Py.strip (form_get r "background" "")
  /\ hit_points c = Py.strip (form_get r "hit_points" "")
  /\ armor_class c = Py.strip (form_get r "armor_class" "")
  /\ speed c = Py.strip (form_get r "speed" "")
  /\ proficiencies c = form_get r "proficiencies" ""
  /\ equipment c = form_get r "equipment" ""
  /\ spells c = form_get r "spells" ""
  /\ notes c = form_get r "notes" "".
Proof. repeat split. Qed.

Lemma truthy_false s : Py.truthy s = false <-> s = "".
Proof. destruct s; simpl; split; congruence. Qed.

(** C9, as the code has it.  Extraction trims the whitespace around the
    one-line fields name, race, character_class, background, level,
    hit_points, armor_class and speed; the level is ["1"] when the trimmed
    field is empty or the field is missing; the multi-line fields
    proficiencies, equipment, spells and notes are taken as submitted; the
    image of the existing record is carried over. *)
Theorem extract_trims_one_line_fields (r : request) (existing : option character) :
  let c := extract_character_form r existing in
  trimmed_of (form_get r "name" "") (name c)
  /\ trimmed_of (form_get r "race" "") (race c)
  /\ trimmed_of (form_get r "character_class" "") (character_class c)
  /\ trimmed_of (form_get r "background" "") (background c)
  /\ trimmed_of (form_get r "hit_points" "") (hit_points c)
  /\ trimmed_of (form_get r "armor_class" "") (armor_class c)
  /\ trimmed_of (form_get r "speed" "") (speed c)
  /\ (trimmed_of (form_get r "level" "1") (level c) /\ level c <> ""
      \/ trimmed_of (form_get r "level" "1") "" /\ level c = "1")
  /\ proficiencies c = form_get r "proficiencies" ""
  /\ equipment c = form_get r "equipment" ""
  /\ spells c = form_get r "spells" ""
  /\ notes c = form_get r "notes" ""
  /\ image c = existing ≫= image
  /\ id c = None.
Proof.
  cbv zeta. unfold extract_character_form; cbn [name race character_class
    background hit_points armor_class speed level proficiencies equipment
    spells notes image id].
  do 7 (split; [apply strip_trimmed|]).
  split; [|repeat split; by destruct existing].
  destruct (Py.truthy (Py.strip (form_get r "level" "1"))) eqn:Ht.
  - left. split; [apply strip_trimmed|].
    intros H. apply truthy_false in H. congruence.
  - right. apply truthy_false in Ht. split; [|done].
    pose proof (strip_trimmed (form_get r "level" "1")) as H.
    by rewrite Ht in H.
Qed.

(** C9, as stated, fails on the multi-line fields: notes submitted with
    whitespace around them are stored with it. *)
Lemma extract_keeps_whitespace_of_notes :
  let r := {| form := [("name", "Anna"); ("notes", " x ")]; files := [] |} in
  notes (extract_character_form r None) = " x "
  /\ Py.strip (form_get r "notes" "") = "x"
  /\ ~ trimmed_of (form_get r "notes" "") (notes (extract_character_form r None)).
Proof.
  cbv zeta. split; [reflexivity|]. split; [reflexivity|].
  intros (_ & Hf & _). specialize (Hf " "%char eq_refl). discriminate.
Qed.

(** *** The handlers *)

Lemma load_character_found cid data st :
  data_dir st !! cid = Some data ->
  load_character cid st = (Ok (set_id cid data), st).
Proof.
  intros H. unfold load_character, bind, json_exists. rewrite H. cbn.
  unfold read_json. by rewrite H.
Qed.

Lemma load_character_missing cid st :
  data_dir st !! cid = None -> load_character cid st = (no_record cid, st).
Proof.
  intros H. unfold load_character, bind, json_exists, no_record. rewrite H.
  by destruct (name_too_long (cid +:+ ".json")).
Qed.

Lemma load_character_outcome cid st :
  load_character cid st
  = (match data_dir st !! cid with
     | Some data => Ok (set_id cid data)
     | None => no_record cid
     end, st).
Proof.
  destruct (data_dir st !! cid) eqn:H.
  - by apply load_character_found.
  - by apply load_character_missing.
Qed.

Lemma bind_no_record {A B} (m : M A) (k : A -> M B) cid st :
  m st = (no_record cid, st) -> bind m k st = (no_record cid, st).
Proof.
  unfold bind. intros ->. unfold no_record.
  by destruct (name_too_long (cid +:+ ".json")).
Qed.

Lemma view_character_missing cid st :
  data_dir st !! cid = None -> view_character cid st = (no_record cid, st).
Proof. intros H. by apply bind_no_record, load_character_missing. Qed.

Lemma edit_character_missing cid st :
  data_dir st !! cid = None -> edit_character cid st = (no_record cid, st).
Proof. intros H. by apply bind_no_record, load_character_missing. Qed.

Lemma delete_character_missing cid st :
  data_dir st !! cid = None -> delete_character cid st = (no_record cid, st).
Proof. intros H. by apply bind_no_record, load_character_missing. Qed.

Lemma no_record_not_ok {A} cid (a : A) : no_record cid <> Ok a.
Proof. unfold no_record. by destruct (name_too_long (cid +:+ ".json")). Qed.

Lemma create_character_no_name uuid r st :
  name (extract_character_form r None) = "" ->
  create_character uuid r st
  = (Ok (redirect new_character_url),
     {| data_dir := data_dir st; upload_folder := upload_folder st;
        flashes := flashes st ++ [name_required] |}).
Proof.
  intros H. unfold create_character. rewrite H. reflexivity.
Qed.

(** C5. A create request whose name is empty after trimming writes no
    record file and saves no image file: both directories are as before,
    and the response redirects to the creation form with the error message
    that the name is required. *)
Theorem create_without_name_writes_nothing (uuid : string) (r : request) (st : state) :
  name (extract_character_form r None) = "" ->
  exists st',
    create_character uuid r st = (Ok (redirect new_character_url), st')
    /\ data_dir st' = data_dir st
    /\ upload_folder st' = upload_folder st
    /\ flashes st' = flashes st ++ [name_required].
Proof.
  intros H. eexists. split; [by apply create_character_no_name|]. done.
Qed.

Lemma create_without_name_writes_nothing_witness :
  let r := sample_request "   " "a.png" in
  name (extract_character_form r None) = ""
  /\ exists st',
      create_character "a1" r anna_state = (Ok (redirect new_character_url), st')
      /\ data_dir st' = data_dir anna_state
      /\ upload_folder st' = upload_folder anna_state
      /\ flashes st' = flashes anna_state ++ [name_required].
Proof.
  split; [reflexivity|].
  apply (create_without_name_writes_nothing "a1" (sample_request "   " "a.png") anna_state).
  reflexivity.
Defined.

Lemma unlink_upload_delete file_name st :
  unlink_upload file_name st
  = (Ok tt, {| data_dir := data_dir st;
               upload_folder := delete file_name (upload_folder st);
               flashes := flashes st |}).
Proof.
  unfold unlink_upload. destruct (upload_folder st !! file_name) eqn:H; [done|].
  rewrite delete_id by done. by destruct st.
Qed.

Lemma delete_character_found cid data st :
  data_dir st !! cid = Some data ->
  delete_character cid st
  = (Ok (redirect index_url),
     {| data_dir := delete cid (data_dir st);
        upload_folder :=
          (if truthy_opt (image data)
           then delete (path_name (default "" (image data))) (upload_folder st)
           else upload_folder st);
        flashes := flashes st ++ [("Personagem removido.", info)] |}).
Proof.
  intros H. unfold delete_character, bind.
  rewrite (load_character_found _ _ _ H).
  unfold unlink_json. rewrite H. cbn [image set_id].
  destruct (truthy_opt (image data)).
  - rewrite unlink_upload_delete. reflexivity.
  - reflexivity.
Qed.








Example delete_anna :
  delete_character "a1" anna_state
  = (Ok (redirect index_url),
     {| data_dir := ∅; upload_folder := ∅;
        flashes := [("Personagem removido.", info)] |}).
Proof.
  vm_compute. reflexivity.
Qed.

(** *** The image store *)

Lemma handle_image_upload_no_file r cid previous_image st :
  no_upload r ->
  handle_image_upload r cid previous_image st = (Ok previous_image, st).
Proof.
  unfold no_upload, handle_image_upload.
  destruct (files_get r "image") as [f|]; [|done].
  by intros ->.
Qed.

Lemma handle_image_upload_rejected r cid previous_image st f :
  files_get r "image" = Some f ->
  filename f <> "" ->
  allowed_file (filename f) = false ->
  handle_image_upload r cid previous_image st
  = (Ok previous_image,
     {| data_dir := data_dir st; upload_folder := upload_folder st;
        flashes := flashes st ++ [invalid_image_format] |}).
Proof.
  intros Hf Hn Ha. unfold handle_image_upload. rewrite Hf, Ha.
  destruct (filename f); [done|]. reflexivity.
Qed.

Lemma allowed_file_truthy s : allowed_file s = true -> Py.truthy s = true.
Proof. by destruct s. Qed.

Lemma handle_image_upload_saved r cid previous_image st f ext :
  files_get r "image" = Some f ->
  allowed_file (filename f) = true ->
  Py.rsplit1 "." (secure_filename (filename f)) !! 1%nat = Some ext ->
  let final_name := cid +:+ "." +:+ Py.lower ext in
  handle_image_upload r cid previous_image st
  = (Ok (Some ("uploads/" +:+ final_name)),
     {| data_dir := data_dir st;
        upload_folder :=
          (if truthy_opt previous_image
              && negb (bool_decide (previous_image = Some ("uploads/" +:+ final_name)))
           then delete (path_name (default "" previous_image))
                       (<[final_name := stream f]> (upload_folder st))
           else <[final_name := stream f]> (upload_folder st));
        flashes := flashes st |}).
Proof.
  intros Hf Ha He final_name. unfold handle_image_upload.
  rewrite Hf, Ha, (allowed_file_truthy _ Ha), He. cbn [negb].
  fold final_name. unfold bind, save_upload.
  destruct (truthy_opt previous_image && _).
  - rewrite unlink_upload_delete. reflexivity.
  - reflexivity.
Qed.

Lemma handle_image_upload_index_error r cid previous_image st f :
  files_get r "image" = Some f ->
  allowed_file (filename f) = true ->
  Py.rsplit1 "." (secure_filename (filename f)) !! 1%nat = None ->
  handle_image_upload r cid previous_image st = (Raise IndexError, st).
Proof.
  intros Hf Ha He. unfold handle_image_upload.
  by rewrite Hf, Ha, (allowed_file_truthy _ Ha), He.
Qed.

(** *** Create and update *)

Lemma name_nonempty_truthy s : s <> "" -> Py.truthy s = true.
Proof. by destruct s. Qed.

Lemma create_character_saved uuid r st img st1 :
  name (extract_character_form r None) <> "" ->
  handle_image_upload r uuid None st = (Ok img, st1) ->
  create_character uuid r st
  = (Ok (redirect (view_character_url uuid)),
     {| data_dir := <[uuid := set_image img (extract_character_form r None)]> (data_dir st1);
        upload_folder := upload_folder st1;
        flashes := flashes st1 ++ [("Personagem criado com sucesso!", success)] |}).
Proof.
  intros Hn Hu. unfold create_character.
  rewrite (name_nonempty_truthy _ Hn). cbn [negb]. unfold bind at 1.
  rewrite Hu. reflexivity.
Qed.

Lemma create_character_raises uuid r st e st1 :
  name (extract_character_form r None) <> "" ->
  handle_image_upload r uuid None st = (Raise e, st1) ->
  create_character uuid r st = (Raise e, st1).
Proof.
  intros Hn Hu. unfold create_character.
  rewrite (name_nonempty_truthy _ Hn). cbn [negb]. unfold bind at 1.
  by rewrite Hu.
Qed.

Lemma update_character_no_name cid r st existing :
  data_dir st !! cid = Some existing ->
  name (extract_character_form r None) = "" ->
  update_character cid r st
  = (Ok (redirect (edit_character_url cid)),
     {| data_dir := data_dir st; upload_folder := upload_folder st;
        flashes := flashes st ++ [name_required] |}).
Proof.
  intros He Hn. unfold update_character. unfold bind at 1.
  rewrite (load_character_found _ _ _ He).
  change (name (extract_character_form r (Some (set_id cid existing))))
    with (name (extract_character_form r None)).
  rewrite Hn. reflexivity.
Qed.

Lemma update_character_saved cid r st existing img st1 :
  data_dir st !! cid = Some existing ->
  name (extract_character_form r None) <> "" ->
  handle_image_upload r cid (image existing) st = (Ok img, st1) ->
  update_character cid r st
  = (Ok (redirect (view_character_url cid)),
     {| data_dir :=
          <[cid := set_image img (extract_character_form r (Some (set_id cid existing)))]>
            (data_dir st1);
        upload_folder := upload_folder st1;
        flashes := flashes st1 ++ [("Personagem atualizado!", success)] |}).
Proof.
  intros He Hn Hu. unfold update_character. unfold bind at 1.
  rewrite (load_character_found _ _ _ He).
  change (name (extract_character_form r (Some (set_id cid existing))))
    with (name (extract_character_form r None)).
  rewrite (name_nonempty_truthy _ Hn). cbn [negb]. unfold bind at 1.
  cbn [image set_id]. rewrite Hu. reflexivity.
Qed.

(** Loading what a successful create wrote gives the extracted record
    with the image reference of the upload step and the new id. *)
Lemma create_then_load uuid r st img st1 :
  name (extract_character_form r None) <> "" ->
  handle_image_upload r uuid None st = (Ok img, st1) ->
  exists st2,
    create_character uuid r st = (Ok (redirect (view_character_url uuid)), st2)
    /\ load_character uuid st2
       = (Ok (set_id uuid (set_image img (extract_character_form r None))), st2)
    /\ view_character uuid st2
       = (Ok (render_view (set_id uuid (set_image img (extract_character_form r None)))), st2).
Proof.
  intros Hn Hu. eexists. split; [by eapply create_character_saved|].
  assert (Hl : forall m : gmap string character,
             <[uuid := set_image img (extract_character_form r None)]> m !! uuid
             = Some (set_image img (extract_character_form r None)))
    by (intros; apply lookup_insert_eq).
  unfold view_character, bind.
  rewrite (load_character_found uuid (set_image img (extract_character_form r None)))
    by apply Hl.
  done.
Qed.

(** C7. An update of an existing character that carries no upload (no
    image file, or one with an empty file name) leaves the upload folder as
    it was, and the record stored afterwards has the image reference the
    record had before, whether the update was saved or turned down for its
    empty name. *)
Theorem update_without_upload_keeps_image
    (cid : string) (r : request) (st : state) (existing : character) :
  data_dir st !! cid = Some existing ->
  no_upload r ->
  exists resp st',
    update_character cid r st = (Ok resp, st')
    /\ upload_folder st' = upload_folder st
    /\ exists c, data_dir st' !! cid = Some c /\ image c = image existing.
Proof.
  intros He Hu.
  destruct (decide (name (extract_character_form r None) = "")) as [Hn|Hn].
  - do 2 eexists. split; [by apply (update_character_no_name cid r st existing)|].
    split; [done|]. by exists existing.
  - do 2 eexists. split.
    + eapply update_character_saved; [done..|].
      by apply handle_image_upload_no_file.
    + split; [done|]. eexists. split; [apply lookup_insert_eq|done].
Qed.

Lemma update_without_upload_keeps_image_witness :
  let r := sample_request "Anna B" "" in
  data_dir anna_state !! "a1" = Some anna
  /\ no_upload r
  /\ exists resp st',
      update_character "a1" r anna_state = (Ok resp, st')
      /\ upload_folder st' = upload_folder anna_state
      /\ exists c, data_dir st' !! "a1" = Some c /\ image c = image anna.
Proof.
  split; [reflexivity|]. split; [reflexivity|].
  apply (update_without_upload_keeps_image "a1" (sample_request "Anna B" "") anna_state anna);
    reflexivity.
Defined.

Example update_anna_without_upload :
  exists st',
    update_character "a1" (sample_request "Anna B" "") anna_state
    = (Ok (redirect (view_character_url "a1")), st')
    /\ (image <$> data_dir st' !! "a1") = Some (Some "uploads/a1.png")
    /\ (name <$> data_dir st' !! "a1") = Some "Anna B"
    /\ map_to_list (upload_folder st') = [("a1.png", "old bytes")].
Proof. eexists. split; [vm_compute; reflexivity|]. repeat split. Qed.

Example allowed_file_examples :
  allowed_file "portrait.exe" = false /\ allowed_file "portrait" = false
  /\ allowed_file "a.PNG" = true /\ allowed_file "a.b.JpeG" = true
  /\ allowed_file "a.png." = false /\ allowed_file ".webp" = true.
Proof. repeat split. Qed.

(** C6, as stated, fails when the name is empty: the request is turned
    down before the upload is looked at, so the image is not reported and no
    record is saved. *)
Lemma create_invalid_image_without_name :
  let r := sample_request "  " "portrait.exe" in
  allowed_file "portrait.exe" = false
  /\ exists st',
      create_character "a2" r empty_state = (Ok (redirect new_character_url), st')
      /\ data_dir st' !! "a2" = None
      /\ invalid_image_format ∉ flashes st'.
Proof.
  split; [reflexivity|]. eexists. split; [vm_compute; reflexivity|].
  split; [reflexivity|]. cbn [flashes].
  intros H. apply list_elem_of_In in H. destruct H as [H|[]]. discriminate H.
Qed.

(** C6, as the code has it.  A create request with a non-empty name, and an
    update request with a non-empty name on an existing id, that upload a
    file with a non-empty file name that [allowed_file] turns down: the
    invalid-format message is flashed as an error, the upload folder is left
    as it was, and the record is saved with the image reference it had
    before (none on create). *)
Theorem invalid_image_rejected_record_saved
    (uuid : string) (r : request) (st : state) (f : file_storage) :
  files_get r "image" = Some f ->
  filename f <> "" ->
  allowed_file (filename f) = false ->
  name (extract_character_form r None) <> "" ->
  (exists st',
      create_character uuid r st = (Ok (redirect (view_character_url uuid)), st')
      /\ upload_folder st' = upload_folder st
      /\ data_dir st' = <[uuid := extract_character_form r None]> (data_dir st)
      /\ image (extract_character_form r None) = None
      /\ flashes st'
         = flashes st ++ [invalid_image_format; ("Personagem criado com sucesso!", success)])
  /\ (forall cid existing,
        data_dir st !! cid = Some existing ->
        exists st' saved,
          update_character cid r st = (Ok (redirect (view_character_url cid)), st')
          /\ upload_folder st' = upload_folder st
          /\ data_dir st' = <[cid := saved]> (data_dir st)
          /\ saved = extract_character_form r (Some (set_id cid existing))
          /\ image saved = image existing
          /\ flashes st'
             = flashes st ++ [invalid_image_format; ("Personagem atualizado!", success)]).
Proof.
  intros Hf Hne Ha Hn. split.
  - eexists. split.
    + eapply create_character_saved; [done|].
      by eapply handle_image_upload_rejected.
    + cbn [data_dir upload_folder flashes]. rewrite <- app_assoc. done.
  - intros cid existing He. do 2 eexists. split.
    + eapply update_character_saved; [done..|].
      by eapply handle_image_upload_rejected.
    + cbn [data_dir upload_folder flashes]. rewrite <- app_assoc. done.
Qed.

Lemma invalid_image_rejected_record_saved_witness :
  let r := sample_request "Anna B" "portrait.exe" in
  let f := {| filename := "portrait.exe"; stream := "bytes" |} in
  (files_get r "image" = Some f /\ filename f <> "" /\ allowed_file (filename f) = false
   /\ name (extract_character_form r None) <> "")
  /\ (exists st',
        create_character "a2" r anna_state = (Ok (redirect (view_character_url "a2")), st')
        /\ upload_folder st' = upload_folder anna_state
        /\ data_dir st' = <["a2" := extract_character_form r None]> (data_dir anna_state)
        /\ image (extract_character_form r None) = None
        /\ flashes st'
           = flashes anna_state
             ++ [invalid_image_format; ("Personagem criado com sucesso!", success)])
  /\ (exists st' saved,
        update_character "a1" r anna_state = (Ok (redirect (view_character_url "a1")), st')
        /\ upload_folder st' = upload_folder anna_state
        /\ data_dir st' = <["a1" := saved]> (data_dir anna_state)
        /\ saved = extract_character_form r (Some (set_id "a1" anna))
        /\ image saved = image anna
        /\ flashes st'
           = flashes anna_state ++ [invalid_image_format; ("Personagem atualizado!", success)]).
Proof.
  pose (r := sample_request "Anna B" "portrait.exe").
  pose (f := {| filename := "portrait.exe"; stream := "bytes" |}).
  assert (H1 : files_get r "image" = Some f) by reflexivity.
  assert (H2 : filename f <> "") by discriminate.
  assert (H3 : allowed_file (filename f) = false) by reflexivity.
  assert (H4 : name (extract_character_form r None) <> "") by discriminate.
  split; [done|].
  destruct (invalid_image_rejected_record_saved "a2" r anna_state f H1 H2 H3 H4)
    as [Hc Hu].
  split; [exact Hc|]. exact (Hu "a1" anna eq_refl).
Defined.

(** C1 at a request the code fails on.  A create request with the name
    "Anna" and an upload named ".png" passes the name check and the
    allow-list, then raises [IndexError] in the upload step before anything
    is written: no record is saved, and loading the new id gives 404. *)
Theorem create_with_dot_png_saves_nothing :
  let r := sample_request "Anna" ".png" in
  name (extract_character_form r None) = "Anna"
  /\ create_character "a2" r empty_state = (Raise IndexError, empty_state)
  /\ load_character "a2" empty_state = (Abort 404%nat, empty_state)
  /\ view_character "a2" empty_state = (Abort 404%nat, empty_state).
Proof. repeat split. Qed.

(** C10 at the upload named ".png".  The allow-list accepts the name, its
    sanitised form "png" has no dot left, so the second piece of
    [rsplit(".", 1)] does not exist and [handle_image_upload] raises
    [IndexError]. *)
Theorem secure_filename_loses_the_dot :
  allowed_file ".png" = true
  /\ secure_filename ".png" = "png"
  /\ Py.contains "." (secure_filename ".png") = false
  /\ Py.rsplit1 "." (secure_filename ".png") !! 1%nat = None
  /\ forall cid previous_image st,
      handle_image_upload (sample_request "Anna" ".png") cid previous_image st
      = (Raise IndexError, st).
Proof.
  do 4 (split; [reflexivity|]). intros.
  by apply (handle_image_upload_index_error _ _ _ _
              {| filename := ".png"; stream := "bytes" |}).
Qed.

(** *** The listing *)

Section Sorted_by_key.
Context {A : Type} (key : A -> string).

Let le (a b : A) : Prop := String.leb (key a) (key b) = true.

Lemma leb_false_flip (s t : string) : String.leb s t = false -> String.leb t s = true.
Proof. intros H. destruct (String.leb_total s t) as [H'|H']; congruence. Qed.

Lemma leb_trans (s t u : string) :
  String.leb s t = true -> String.leb t u = true -> String.leb s u = true.
Proof.
  intros H1 H2. apply Is_true_true.
  apply Is_true_true in H1, H2.
  exact (transitivity (R := String.le) H1 H2).
Qed.

Lemma insert_by_perm (x : A) (l : list A) : insert_by key x l ≡ₚ x :: l.
Proof.
  induction l as [|y l IH]; simpl; [done|].
  destruct (String.leb (key x) (key y)); [done|].
  rewrite IH. apply Permutation_swap.
Qed.

Lemma sorted_perm (l : list A) : sorted key l ≡ₚ l.
Proof.
  induction l as [|x l IH]; simpl; [done|].
  rewrite insert_by_perm. by rewrite IH.
Qed.

Lemma insert_by_sorted (x : A) (l : list A) :
  StronglySorted le l -> StronglySorted le (insert_by key x l).
Proof.
  induction 1 as [|y l Hs IH Hy]; simpl.
  - repeat constructor.
  - destruct (String.leb (key x) (key y)) eqn:Hxy.
    + constructor; [by constructor|].
      constructor; [exact Hxy|].
      eapply Forall_impl; [exact Hy|].
      intros z Hz. by eapply leb_trans.
    + constructor; [exact IH|].
      rewrite insert_by_perm. constructor; [|exact Hy].
      by apply leb_false_flip.
Qed.

Lemma sorted_sorted (l : list A) : StronglySorted le (sorted key l).
Proof.
  induction l as [|x l IH]; simpl; [constructor|].
  by apply insert_by_sorted.
Qed.
End Sorted_by_key.

Lemma load_characters_run st :
  load_characters st
  = (Ok (sorted (fun item => Py.lower (name item))
           ((fun '(stem, data) => set_id stem data) <$> map_to_list (data_dir st))), st).
Proof. reflexivity. Qed.

Lemma lower_char_fold_case c : Py.lower_char c = fold_case_char c.
Proof. by_cases_on_char c. Qed.

Lemma lower_fold_case s : Py.lower s = fold_case s.
Proof.
  induction s as [|a s IH]; [done|]. simpl. by rewrite lower_char_fold_case, IH.
Qed.

Lemma strongly_sorted_weaken {A} (R R' : A -> A -> Prop) l :
  (forall a b, R a b -> R' a b) -> StronglySorted R l -> StronglySorted R' l.
Proof.
  intros H. induction 1 as [|a l Hs IH Ha]; constructor; [done|].
  eapply Forall_impl; [exact Ha|]. auto.
Qed.

Lemma set_id_same_document stem data :
  id (set_id stem data) = Some stem /\ same_document (set_id stem data) data.
Proof. repeat split. Qed.

(** C3. [load_characters] returns the records of all files of the data
    directory, each once, with every key of its file and with the file stem
    as id, in ascending order of the name taken without regard to case; an
    empty directory gives the empty list; records named "zara", "Anna" and
    "bob" come out as Anna, bob, zara, and records named "bob", "Anna" and
    "Zara" as Anna, bob, Zara, in whatever order the directory lists
    them. *)
Theorem load_characters_sorted_by_name (st : state) :
  exists l,
    load_characters st = (Ok l, st)
    /\ l ≡ₚ (fun '(stem, data) => set_id stem data) <$> map_to_list (data_dir st)
    /\ (forall c, c ∈ l <->
                  exists stem data, data_dir st !! stem = Some data /\ c = set_id stem data)
    /\ Forall (fun c => exists stem data,
                          data_dir st !! stem = Some data
                          /\ id c = Some stem /\ same_document c data) l
    /\ (forall stem data,
          data_dir st !! stem = Some data ->
          exists c, c ∈ l /\ id c = Some stem /\ same_document c data)
    /\ NoDup (id <$> l)
    /\ length l = size (data_dir st)
    /\ StronglySorted name_le l
    /\ StronglySorted (fun a b => caseless_le (name a) (name b)) l
    /\ (data_dir st = ∅ -> l = [])
    /\ Forall (fun listing =>
                 name <$> sorted (fun item => Py.lower (name item)) listing
                 = ["Anna"; "bob"; "zara"])
              (permutations [named "zara"; named "Anna"; named "bob"])
    /\ Forall (fun listing =>
                 name <$> sorted (fun item => Py.lower (name item)) listing
                 = ["Anna"; "bob"; "Zara"])
              (permutations [named "bob"; named "Anna"; named "Zara"])
    /\ name <$> sorted (fun item => Py.lower (name item))
                   [named (String "201" "z"); named (String "233" "a")]
       = [String "233" "a"; String "201" "z"]
    /\ (name <$> default [] (match load_characters three_state with
                             | (Ok found, _) => Some found
                             | _ => None
                             end)) = ["Anna"; "bob"; "zara"].
Proof.
  eexists. split; [apply load_characters_run|].
  split; [apply sorted_perm|].
  assert (Helem : forall c,
             c ∈ sorted (fun item => Py.lower (name item))
                   ((fun '(stem, data) => set_id stem data) <$> map_to_list (data_dir st))
             <-> exists stem data, data_dir st !! stem = Some data /\ c = set_id stem data).
  { intros c. rewrite sorted_perm. rewrite list_elem_of_fmap. split.
    - intros ([stem data] & -> & Hin). apply elem_of_map_to_list in Hin. eauto.
    - intros (stem & data & Hl & ->). exists (stem, data).
      split; [done|]. by apply elem_of_map_to_list. }
  split; [exact Helem|].
  split.
  { apply Forall_forall. intros c (stem & data & Hl & ->)%Helem.
    exists stem, data. split; [done|]. apply set_id_same_document. }
  split.
  { intros stem data Hl. exists (set_id stem data).
    split; [apply Helem; eauto|]. apply set_id_same_document. }
  split.
  { rewrite sorted_perm.
    assert (E : id <$> ((fun '(stem, data) => set_id stem data) <$> map_to_list (data_dir st))
                = Some <$> (map_to_list (data_dir st)).*1).
    { rewrite <- !list_fmap_compose. apply list_fmap_ext. by intros ? [k d]. }
    rewrite E. apply (NoDup_fmap_2 Some), NoDup_fst_map_to_list. }
  split.
  { rewrite sorted_perm. rewrite length_fmap. apply length_map_to_list. }
  split; [apply (sorted_sorted (fun item => Py.lower (name item)))|].
  split.
  { pose proof (sorted_sorted (fun item => Py.lower (name item))
                  ((fun '(stem, data) => set_id stem data) <$> map_to_list (data_dir st)))
      as Hs.
    eapply strongly_sorted_weaken; [|exact Hs].
    intros a b Hab. unfold caseless_le. by rewrite <- !lower_fold_case. }
  split.
  { intros ->. by rewrite map_to_list_empty. }
  split; [vm_compute; repeat constructor|].
  split; [vm_compute; repeat constructor|].
  split; vm_compute; reflexivity.
Qed.

(** *** The extension of a sanitised file name *)

Lemma lower_char_letter c : Py.is_lower (Py.lower_char c) = true -> letter c = true.
Proof. by_cases_on_char c. Qed.

Lemma letter_kept c : letter c = true -> kept_char c = true.
Proof. by_cases_on_char c. Qed.

Lemma letter_not_stripped c : letter c = true -> Py.contains c "._" = false.
Proof. by_cases_on_char c. Qed.

Lemma all_chars_impl (p q : ascii -> bool) s :
  (forall c, p c = true -> q c = true) -> all_chars p s = true -> all_chars q s = true.
Proof.
  intros Hpq. induction s as [|a s IH]; simpl; [done|].
  intros [Ha Hs]%andb_true_iff. apply andb_true_iff. auto.
Qed.

Lemma all_chars_last p s c :
  all_chars p s = true -> last_char s = Some c -> p c = true.
Proof.
  induction s as [|a s IH]; simpl; [done|].
  intros [Ha Hs]%andb_true_iff. destruct s; [by intros [= <-]|]. by apply IH.
Qed.

Lemma lower_letters e :
  all_chars Py.is_lower (Py.lower e) = true -> all_chars letter e = true.
Proof.
  induction e as [|a e IH]; simpl; [done|].
  intros [Ha He]%andb_true_iff. apply andb_true_iff.
  split; [by apply lower_char_letter | by apply IH].
Qed.

Lemma allowed_extension_letters e :
  Py.lower e ∈ ALLOWED_EXTENSIONS -> e <> "" /\ all_chars letter e = true.
Proof.
  intros H. split.
  - intros ->. vm_compute in H. by repeat (apply elem_of_cons in H as [H|H]; [done|]);
      apply elem_of_nil in H.
  - apply lower_letters. unfold ALLOWED_EXTENSIONS in H.
    repeat (apply elem_of_cons in H as [->|H]; [reflexivity|]).
    by apply elem_of_nil in H.
Qed.

Lemma rsplit_last_none c s : Py.rsplit_last c s = None -> Py.contains c s = false.
Proof.
  induction s as [|a s IH]; simpl; [done|].
  destruct (Py.rsplit_last c s) as [[h t]|]; [done|].
  destruct (Ascii.eqb a c); [done|]. intros _. by apply IH.
Qed.

Lemma rsplit_last_no_char c s : Py.contains c s = false -> Py.rsplit_last c s = None.
Proof.
  induction s as [|a s IH]; simpl; [done|].
  intros [Ha Hs]%orb_false_iff. by rewrite (IH Hs), Ha.
Qed.

Lemma rsplit_last_spec c s h t :
  Py.rsplit_last c s = Some (h, t) -> s = h +:+ String c t /\ Py.contains c t = false.
Proof.
  revert h. induction s as [|a s IH]; intros h; simpl; [done|].
  destruct (Py.rsplit_last c s) as [[h' t']|] eqn:Hr.
  - intros [= <- <-]. destruct (IH h' eq_refl) as [-> Ht]. by rewrite app_cons.
  - destruct (Ascii.eqb a c) eqn:Ha; [|done]. intros [= <- <-].
    apply Ascii.eqb_eq in Ha as ->. split; [done|]. by apply rsplit_last_none.
Qed.

Lemma rsplit_last_app c h t :
  Py.contains c t = false -> Py.rsplit_last c (h +:+ String c t) = Some (h, t).
Proof.
  intros Ht. induction h as [|a h IH].
  - rewrite app_nil_l. simpl. by rewrite (rsplit_last_no_char _ _ Ht), Ascii.eqb_refl.
  - rewrite app_cons. simpl. by rewrite IH.
Qed.

Lemma allowed_file_extension f :
  allowed_file f = true ->
  exists h e, f = h +:+ String "." e /\ Py.contains "." e = false
              /\ Py.lower e ∈ ALLOWED_EXTENSIONS.
Proof.
  unfold allowed_file, Py.rsplit1. intros [_ H]%andb_true_iff.
  destruct (Py.rsplit_last "." f) as [[h e]|] eqn:Hr; [|done].
  cbn in H. apply bool_decide_eq_true in H.
  destruct (rsplit_last_spec _ _ _ _ Hr) as [-> He]. eauto.
Qed.

Lemma keep_app p s t : Py.keep p (s +:+ t) = Py.keep p s +:+ Py.keep p t.
Proof.
  induction s as [|a s IH]; [done|]. rewrite app_cons. simpl.
  destruct (p a); [rewrite app_cons|]; by rewrite IH.
Qed.

Lemma keep_all p t : all_chars p t = true -> Py.keep p t = t.
Proof.
  induction t as [|a t IH]; simpl; [done|].
  intros [-> Ht]%andb_true_iff. by rewrite IH.
Qed.

Lemma nfkd_ascii_app s t : nfkd_ascii (s +:+ t) = nfkd_ascii s +:+ nfkd_ascii t.
Proof.
  induction s as [|a s IH]; [done|]. rewrite app_cons. cbn [nfkd_ascii].
  by rewrite IH, app_assoc_string.
Qed.

Lemma nfkd_ascii_id t : all_chars is_ascii t = true -> nfkd_ascii t = t.
Proof.
  induction t as [|a t IH]; [done|]. cbn [all_chars nfkd_ascii].
  intros [Ha Ht]%andb_true_iff. unfold nfkd_ascii_char. rewrite Ha, IH by done.
  by rewrite app_cons, app_nil_l.
Qed.

Lemma replace_char_app a b s t :
  Py.replace_char a b (s +:+ t) = Py.replace_char a b s +:+ Py.replace_char a b t.
Proof.
  induction s as [|c s IH]; [done|]. rewrite app_cons. simpl.
  by rewrite app_cons, IH.
Qed.

Lemma replace_char_none a b t :
  all_chars (fun c => negb (Ascii.eqb c a)) t = true -> Py.replace_char a b t = t.
Proof.
  induction t as [|c t IH]; simpl; [done|].
  intros [Hc Ht]%andb_true_iff. apply negb_true_iff in Hc. by rewrite Hc, IH.
Qed.

Lemma split_one_word t :
  t <> "" -> all_chars (fun c => negb (Py.isspace c)) t = true -> Py.split t = [t].
Proof.
  induction t as [|c t IH]; [done|]. intros _. simpl.
  intros [Hc Ht]%andb_true_iff. apply negb_true_iff in Hc. rewrite Hc.
  destruct t as [|c' t]; [done|].
  assert (Hc' : Py.isspace c' = false).
  { simpl in Ht. apply andb_true_iff in Ht as [Hc' _]. by apply negb_true_iff in Hc'. }
  rewrite Hc'. by rewrite IH.
Qed.

Lemma join_cons sep c w ws :
  Py.join sep (String c w :: ws) = String c (Py.join sep (w :: ws)).
Proof. destruct ws; [done|]. simpl. by rewrite app_cons. Qed.

(** Joining the words of a string keeps a tail that has no whitespace. *)
Lemma join_split_tail h t :
  t <> "" -> all_chars (fun c => negb (Py.isspace c)) t = true ->
  exists x, Py.join "_" (Py.split (h +:+ t)) = x +:+ t.
Proof.
  intros Hne Ht. induction h as [|c h IH].
  - exists "". by rewrite app_nil_l, split_one_word.
  - destruct IH as [x Hx]. rewrite app_cons.
    assert (Hs : Py.split (h +:+ t) <> []).
    { intros E. rewrite E in Hx. simpl in Hx. symmetry in Hx.
      by apply app_empty_r in Hx. }
    simpl. destruct (Py.isspace c); [by exists x|].
    destruct (h +:+ t) as [|c' rest] eqn:E; [done|].
    destruct (Py.isspace c').
    + exists (String c (String "_" x)).
      destruct (Py.split (String c' rest)) as [|w ws] eqn:Ew; [done|].
      change (Py.join "_" (String c "" :: w :: ws))
        with (String c "" +:+ "_" +:+ Py.join "_" (w :: ws)).
      rewrite Hx. by rewrite !app_cons.
    + destruct (Py.split (String c' rest)) as [|w ws] eqn:Ew; [done|].
      exists (String c x). by rewrite join_cons, Hx, app_cons.
Qed.

Lemma lstrip_with_tail p y e c0 :
  p "."%char = true -> first_char e = Some c0 -> p c0 = false ->
  Py.lstrip_with p (y +:+ String "." e) = e
  \/ exists q, Py.lstrip_with p (y +:+ String "." e) = q +:+ String "." e.
Proof.
  intros Hdot He Hc0. induction y as [|c y IH].
  - left. rewrite app_nil_l. simpl. rewrite Hdot.
    destruct e as [|a e]; [done|]. simpl in *. injection He as ->. by rewrite Hc0.
  - rewrite app_cons. simpl. destruct (p c); [exact IH|].
    right. exists (String c y). by rewrite app_cons.
Qed.

Lemma rstrip_with_id p s c :
  last_char s = Some c -> p c = false -> Py.rstrip_with p s = s.
Proof.
  intros Hl Hc. induction s as [|a s IH]; [done|]. simpl.
  destruct s as [|a' s].
  - simpl in *. injection Hl as ->. by rewrite Hc.
  - rewrite IH by exact Hl. done.
Qed.

Lemma last_char_none s : last_char s = None -> s = "".
Proof.
  induction s as [|a s IH]; [done|]. simpl. destruct s; [done|].
  intros H. by apply IH in H.
Qed.

Lemma last_char_app q s : s <> "" -> last_char (q +:+ s) = last_char s.
Proof.
  intros Hs. induction q as [|a q IH]; [done|]. rewrite app_cons. simpl.
  destruct (q +:+ s) eqn:E; [|done]. by apply app_empty_r in E.
Qed.

(** For a file name the allow-list accepts, sanitising keeps the extension;
    what is before it either disappears, and the dot with it, or stays with
    the dot. *)
Lemma secure_filename_allowed f :
  allowed_file f = true ->
  exists h e,
    f = h +:+ String "." e /\ Py.contains "." e = false
    /\ Py.lower e ∈ ALLOWED_EXTENSIONS
    /\ (secure_filename f = e \/ exists q, secure_filename f = q +:+ String "." e).
Proof.
  intros (h & e & -> & Hdot & Hext)%allowed_file_extension.
  exists h, e. do 3 (split; [done|]).
  destruct (allowed_extension_letters _ Hext) as [Hne Hlet].
  assert (Hkept : all_chars kept_char (String "." e) = true).
  { simpl. eapply all_chars_impl; [apply letter_kept|done]. }
  unfold secure_filename.
  rewrite nfkd_ascii_app, (nfkd_ascii_id (String "." e)); cycle 1.
  { eapply all_chars_impl; [|exact Hkept]. unfold kept_char. intros c.
    rewrite !andb_true_iff. tauto. }
  rewrite replace_char_app, (replace_char_none _ _ (String "." e)); cycle 1.
  { eapply all_chars_impl; [|exact Hkept]. unfold kept_char. intros c.
    rewrite !andb_true_iff. tauto. }
  destruct (join_split_tail (Py.replace_char "/" " " (nfkd_ascii h)) (String "." e))
    as [x ->]; [done| |].
  { eapply all_chars_impl; [|exact Hkept]. unfold kept_char. intros c.
    rewrite !andb_true_iff. tauto. }
  rewrite keep_app, (keep_all filename_char (String "." e)); cycle 1.
  { eapply all_chars_impl; [|exact Hkept]. unfold kept_char. intros c.
    rewrite !andb_true_iff. tauto. }
  unfold Py.strip_chars, Py.strip_with.
  destruct e as [|c0 e0] eqn:Ee; [done|]. rewrite <- Ee in *.
  assert (Hc0 : Py.contains c0 "._" = false).
  { apply letter_not_stripped. rewrite Ee in Hlet. simpl in Hlet.
    by apply andb_true_iff in Hlet as [? _]. }
  destruct (last_char e) as [cl|] eqn:Hl; [|by apply last_char_none in Hl].
  assert (Hcl : Py.contains cl "._" = false).
  { apply letter_not_stripped. by eapply all_chars_last. }
  destruct (lstrip_with_tail (fun c => Py.contains c "._") (Py.keep filename_char x) e c0)
    as [-> | [q ->]]; [done|by rewrite Ee|done| |].
  - left. by eapply rstrip_with_id.
  - right. exists q. eapply rstrip_with_id; [|exact Hcl].
    rewrite last_char_app by done. simpl. by rewrite Ee, <- Ee.
Qed.

(** When the sanitised name still has an extension, it is the extension
    the allow-list saw, so the stored file has an allowed extension. *)
Lemma secure_filename_extension f ext :
  allowed_file f = true ->
  Py.rsplit1 "." (secure_filename f) !! 1%nat = Some ext ->
  Py.rsplit1 "." f !! 1%nat = Some ext /\ Py.lower ext ∈ ALLOWED_EXTENSIONS.
Proof.
  intros (h & e & -> & Hdot & Hext & Hs)%secure_filename_allowed.
  unfold Py.rsplit1 at 2. rewrite rsplit_last_app by done. cbn [lookup list_lookup].
  unfold Py.rsplit1. destruct Hs as [-> | [q ->]].
  - by rewrite rsplit_last_no_char.
  - rewrite rsplit_last_app by done. cbn. by intros [= <-].
Qed.

(** *** Replacing the image *)

Lemma contains_app c s t :
  Py.contains c (s +:+ t) = Py.contains c s || Py.contains c t.
Proof.
  induction s as [|a s IH]; [done|]. rewrite app_cons. simpl.
  by rewrite IH, orb_assoc.
Qed.

Lemma split_on_no_char c n : Py.contains c n = false -> split_on c n = [n].
Proof.
  induction n as [|a n IH]; simpl; [done|].
  intros [-> Hn]%orb_false_iff. by rewrite IH.
Qed.

Lemma path_name_uploads n :
  Py.contains "/" n = false -> n <> "" -> n <> "." ->
  path_name ("uploads/" +:+ n) = n.
Proof.
  intros Hs Hn Hd. unfold path_name.
  change (split_on "/" ("uploads/" +:+ n))
    with ("uploads" :: split_on "/" n).
  rewrite split_on_no_char by done. cbn [List.filter].
  change (String.eqb "uploads" "") with false.
  change (String.eqb "uploads" ".") with false. cbn [negb andb].
  apply String.eqb_neq in Hn, Hd. by rewrite Hn, Hd.
Qed.

(** The reference a successful upload returns for an id without slash is
    an image reference in the sense above. *)
Lemma uploaded_reference cid ext :
  Py.contains "/" cid = false -> Py.lower ext ∈ ALLOWED_EXTENSIONS ->
  image_reference ("uploads/" +:+ cid +:+ "." +:+ Py.lower ext).
Proof.
  intros Hc He. unfold image_reference. rewrite path_name_uploads; [done|..].
  - rewrite contains_app, Hc. unfold ALLOWED_EXTENSIONS in He.
    repeat (apply elem_of_cons in He as [->|He]; [reflexivity|]).
    by apply elem_of_nil in He.
  - intros E. apply app_empty_r in E. discriminate E.
  - unfold ALLOWED_EXTENSIONS in He.
    repeat (apply elem_of_cons in He as [->|He];
            [destruct cid as [|? [|? ?]]; discriminate|]).
    by apply elem_of_nil in He.
Qed.


Lemma truthy_opt_true v : truthy_opt v = true -> exists img, v = Some img /\ img <> "".
Proof. destruct v as [[|a s]|]; [done| |done]. intros _. by eexists. Qed.



Example update_unlinks_the_new_file :
  let lost := set_image (Some "old/a1.jpg") anna in
  let st := {| data_dir := {[ "a1" := lost ]}; upload_folder := ∅; flashes := [] |} in
  upload_folder (snd (update_character "a1" (sample_request "Anna B" "x.jpg") st))
  = ∅.
Proof. vm_compute. reflexivity. Qed.

Example replace_anna_image :
  exists st',
    update_character "a1" (sample_request "Anna B" "My Photo.JPG") anna_state
    = (Ok (redirect (view_character_url "a1")), st')
    /\ map_to_list (upload_folder st') = [("a1.jpg", "bytes")]
    /\ (image <$> data_dir st' !! "a1") = Some (Some "uploads/a1.jpg")
    /\ secure_filename "My Photo.JPG" = "My_Photo.JPG".
Proof. eexists. split; [vm_compute; reflexivity|]. repeat split. Qed.

(** *** The template filter *)

Lemma escape_char_linebreak c : is_linebreak c = true -> escape_char c = String c "".
Proof. by_cases_on_char c. Qed.

Lemma escape_char_first c :
  is_linebreak c = false ->
  exists x rest, escape_char c = String x rest /\ is_linebreak x = false
                 /\ all_chars (fun a => negb (is_linebreak a)) rest = true.
Proof.
  intros H. unfold escape_char.
  repeat match goal with
         | |- context [if ?b then _ else _] => destruct b; [by do 2 eexists|]
         end.
  exists c, "". by rewrite H.
Qed.

Lemma escape_char_safe c :
  is_linebreak c = false -> all_chars html_safe_char (escape_char c) = true.
Proof. by_cases_on_char c. Qed.

Lemma all_chars_app p s t :
  all_chars p (s +:+ t) = all_chars p s && all_chars p t.
Proof.
  induction s as [|a s IH]; [done|]. rewrite app_cons. simpl.
  by rewrite IH, andb_assoc.
Qed.

Lemma splitlines_prefix t s :
  t <> "" -> all_chars (fun a => negb (is_linebreak a)) t = true ->
  splitlines (t +:+ s)
  = match splitlines s with [] => [t] | w :: ws => (t +:+ w) :: ws end.
Proof.
  induction t as [|c t IH]; [done|]. intros _ [Hc Ht]%andb_true_iff.
  apply negb_true_iff in Hc. rewrite app_cons. simpl. rewrite Hc.
  destruct t as [|c' t].
  - rewrite app_nil_l. by destruct (splitlines s).
  - rewrite IH by done. by destruct (splitlines s).
Qed.

Lemma splitlines_escape_step c s :
  splitlines (escape s) = escape <$> splitlines s ->
  (forall c' s', s = String c' s' -> splitlines (escape s') = escape <$> splitlines s') ->
  splitlines (escape (String c s)) = escape <$> splitlines (String c s).
Proof.
  intros IH IH'. destruct (is_linebreak c) eqn:Hc.
  - cbn [escape]. rewrite (escape_char_linebreak c Hc), app_cons, app_nil_l.
    cbn [splitlines]. rewrite Hc.
    destruct s as [|c' s']; [done|].
    destruct (is_linebreak c') eqn:Hc'.
    + cbn [escape]. rewrite (escape_char_linebreak c' Hc'), app_cons, app_nil_l.
      destruct (Ascii.eqb c "013" && Ascii.eqb c' "010").
      * by rewrite (IH' c' s' eq_refl).
      * cbn [escape] in IH.
        rewrite (escape_char_linebreak c' Hc'), app_cons, app_nil_l in IH.
        by rewrite IH.
    + assert (Ascii.eqb c' "010" = false) as ->.
      { destruct (Ascii.eqb_spec c' "010") as [->|]; [done|done]. }
      rewrite andb_false_r.
      destruct (escape_char_first c' Hc') as (x & rest & Hx & Hxb & _).
      cbn [escape] in *. rewrite Hx, app_cons in *.
      assert (Ascii.eqb x "010" = false) as ->.
      { destruct (Ascii.eqb_spec x "010") as [->|]; [done|done]. }
      rewrite andb_false_r. by rewrite IH.
  - cbn [escape]. destruct (escape_char_first c Hc) as (x & rest & Hx & Hxb & Hr).
    rewrite splitlines_prefix; cycle 1.
    { by rewrite Hx. }
    { rewrite Hx. simpl. by rewrite Hxb, Hr. }
    rewrite IH. cbn [splitlines]. rewrite Hc.
    destruct (splitlines s) as [|w ws]; cbn [fmap list_fmap escape].
    + by rewrite app_nil_r.
    + done.
Qed.

(** Escaping does not move the line boundaries. *)
Lemma splitlines_escape s : splitlines (escape s) = escape <$> splitlines s.
Proof.
  enough (H : splitlines (escape s) = escape <$> splitlines s
              /\ forall c, splitlines (escape (String c s))
                           = escape <$> splitlines (String c s)) by apply H.
  induction s as [|a s [IH1 IH2]].
  - split; [done|]. intros c. by apply splitlines_escape_step.
  - split; [apply IH2|]. intros c. apply splitlines_escape_step; [apply IH2|].
    by intros c' s' [= <- <-].
Qed.

Lemma splitlines_cons c s :
  splitlines (String c s)
  = if is_linebreak c then
      match s with
      | EmptyString => [EmptyString]
      | String c' s' =>
          if Ascii.eqb c "013" && Ascii.eqb c' "010"
          then EmptyString :: splitlines s'
          else EmptyString :: splitlines s
      end
    else match splitlines s with
         | [] => [String c EmptyString]
         | w :: ws => String c w :: ws
         end.
Proof. reflexivity. Qed.

Lemma splitlines_no_linebreak s :
  Forall (fun l => all_chars (fun a => negb (is_linebreak a)) l = true) (splitlines s).
Proof.
  enough (H : Forall (fun l => all_chars (fun a => negb (is_linebreak a)) l = true)
                     (splitlines s)
              /\ forall c, Forall (fun l => all_chars (fun a => negb (is_linebreak a)) l = true)
                                  (splitlines (String c s))) by apply H.
  induction s as [|a s [IH1 IH2]].
  - split; [constructor|]. intros c. simpl.
    destruct (is_linebreak c) eqn:Hc; repeat constructor. simpl. by rewrite Hc.
  - split; [apply IH2|]. intros c. rewrite splitlines_cons.
    destruct (is_linebreak c) eqn:Hc.
    + destruct (Ascii.eqb c "013" && Ascii.eqb a "010"); constructor; auto.
    + specialize (IH2 a). destruct (splitlines (String a s)) as [|w ws].
      * repeat constructor. simpl. by rewrite Hc.
      * inversion IH2 as [|? ? Hw Hws]; subst. constructor; [|done].
        simpl. by rewrite Hc, Hw.
Qed.

Lemma escape_safe l :
  all_chars (fun a => negb (is_linebreak a)) l = true ->
  all_chars html_safe_char (escape l) = true.
Proof.
  induction l as [|a l IH]; [done|]. simpl. intros [Ha Hl]%andb_true_iff.
  apply negb_true_iff in Ha. rewrite all_chars_app, (escape_char_safe a Ha). by apply IH.
Qed.

(** X1. The filter gives the empty markup for a missing or empty value,
    and otherwise the lines of the value, each escaped on its own, joined
    by the break tag. *)
Theorem nl2br_filter_escapes_each_line :
  nl2br_filter None = ""
  /\ forall v, nl2br_filter (Some v) = Py.join "<br>" (escape <$> splitlines v).
Proof.
  split; [done|]. intros v. unfold nl2br_filter.
  destruct v as [|c v]; [done|]. cbn [Py.truthy negb]. by rewrite splitlines_escape.
Qed.

(** X2. What the filter gives is a sequence of pieces joined by the break
    tag, and no piece has an angle bracket, a quote or a line boundary: the
    only markup of the result is the break tags the filter put in. *)
Theorem nl2br_filter_output_is_safe (value : option string) :
  exists pieces,
    nl2br_filter value = Py.join "<br>" pieces
    /\ Forall (fun piece => all_chars html_safe_char piece = true) pieces.
Proof.
  destruct value as [v|]; [|by exists []].
  exists (escape <$> splitlines v).
  split; [apply nl2br_filter_escapes_each_line|].
  apply Forall_fmap. eapply Forall_impl; [apply splitlines_no_linebreak|].
  intros l Hl. by apply escape_safe.
Qed.

Example splitlines_examples :
  splitlines (String "a" (String "013" (String "010" (String "010" "b")))) = ["a"; ""; "b"]
  /\ splitlines (String "a" (String "133" "b")) = ["a"; "b"]
  /\ splitlines (String "a" (String "031" "b")) = [String "a" (String "031" "b")]
  /\ splitlines (String "a" (String "010" "")) = ["a"].
Proof. repeat split; reflexivity. Qed.

Example nl2br_filter_script :
  nl2br_filter (Some (String "<" (String "b" (String ">" (String "010" "Tom & Jerry")))))
  = "&lt;b&gt;<br>Tom &amp; Jerry".
Proof. reflexivity. Qed.

(** *** What the upload step can do *)

Lemma allowed_file_iff f :
  allowed_file f = true <->
  exists h e, f = h +:+ String "." e /\ Py.contains "." e = false
              /\ Py.lower e ∈ ALLOWED_EXTENSIONS.
Proof.
  split; [apply allowed_file_extension|].
  intros (h & e & -> & Hdot & Hext). unfold allowed_file, Py.rsplit1.
  rewrite rsplit_last_app by done. cbn [lookup list_lookup].
  rewrite contains_app. cbn [Py.contains]. rewrite Ascii.eqb_refl, orb_true_r.
  by apply bool_decide_eq_true.
Qed.

(** X3. The allow-list accepts exactly the names that end in a dot and
    one of the five extensions in any mix of case; what is before the last
    dot does not matter, and a name without dot is turned down. *)
Theorem allowed_file_accepts_by_last_extension (f : string) :
  (allowed_file f = true <->
   exists h e, f = h +:+ "." +:+ e /\ Py.contains "." e = false
               /\ Py.lower e ∈ ALLOWED_EXTENSIONS)
  /\ (Py.contains "." f = false -> allowed_file f = false).
Proof.
  split; [apply allowed_file_iff|].
  intros H. unfold allowed_file. by rewrite H.
Qed.

(** The four ways the upload step ends. *)
Lemma handle_image_upload_outcome r cid previous_image st :
  (no_upload r /\ handle_image_upload r cid previous_image st = (Ok previous_image, st))
  \/ (exists f, files_get r "image" = Some f /\ filename f <> ""
                 /\ allowed_file (filename f) = false
                 /\ handle_image_upload r cid previous_image st
                    = (Ok previous_image,
                       {| data_dir := data_dir st; upload_folder := upload_folder st;
                          flashes := flashes st ++ [invalid_image_format] |}))
  \/ (exists f ext, files_get r "image" = Some f
                     /\ allowed_file (filename f) = true
                     /\ Py.rsplit1 "." (secure_filename (filename f)) !! 1%nat = Some ext
                     /\ Py.lower ext ∈ ALLOWED_EXTENSIONS
                     /\ handle_image_upload r cid previous_image st
                        = (Ok (Some ("uploads/" +:+ cid +:+ "." +:+ Py.lower ext)),
                           {| data_dir := data_dir st;
                              upload_folder :=
                                (if truthy_opt previous_image
                                    && negb (bool_decide
                                               (previous_image
                                                = Some ("uploads/" +:+ cid +:+ "."
                                                        +:+ Py.lower ext)))
                                 then delete (path_name (default "" previous_image))
                                        (<[cid +:+ "." +:+ Py.lower ext := stream f]>
                                           (upload_folder st))
                                 else <[cid +:+ "." +:+ Py.lower ext := stream f]>
                                        (upload_folder st));
                              flashes := flashes st |}))
  \/ (upload_loses_dot r
      /\ handle_image_upload r cid previous_image st = (Raise IndexError, st)).
Proof.
  destruct (files_get r "image") as [f|] eqn:Hf.
  - destruct (decide (filename f = "")) as [Hn|Hn].
    { left. assert (no_upload r) by (unfold no_upload; by rewrite Hf).
      split; [done|]. by apply handle_image_upload_no_file. }
    destruct (allowed_file (filename f)) eqn:Ha.
    + destruct (Py.rsplit1 "." (secure_filename (filename f)) !! 1%nat) as [ext|] eqn:He.
      * right; right; left. exists f, ext. do 3 (split; [done|]).
        split; [by eapply secure_filename_extension|].
        by apply (handle_image_upload_saved r cid previous_image st f ext).
      * right; right; right. split; [by exists f|].
        by eapply handle_image_upload_index_error.
    + right; left. exists f. do 3 (split; [done|]).
      by apply (handle_image_upload_rejected r cid previous_image st f).
  - left. assert (no_upload r) by (unfold no_upload; by rewrite Hf).
    split; [done|]. by apply handle_image_upload_no_file.
Qed.


(** *** The routes *)

Lemma update_character_missing cid r st :
  data_dir st !! cid = None -> update_character cid r st = (no_record cid, st).
Proof. intros H. by apply bind_no_record, load_character_missing. Qed.

Lemma view_character_found cid data st :
  data_dir st !! cid = Some data ->
  view_character cid st = (Ok (render_view (set_id cid data)), st).
Proof.
  intros H. unfold view_character, bind. by rewrite (load_character_found _ _ _ H).
Qed.

Lemma edit_character_found cid data st :
  data_dir st !! cid = Some data ->
  edit_character cid st
  = (Ok (render_form (set_id cid data) (update_character_url cid) "Salvar alterações"), st).
Proof.
  intros H. unfold edit_character, bind. by rewrite (load_character_found _ _ _ H).
Qed.

Lemma update_character_raises cid r st existing e st1 :
  data_dir st !! cid = Some existing ->
  name (extract_character_form r None) <> "" ->
  handle_image_upload r cid (image existing) st = (Raise e, st1) ->
  update_character cid r st = (Raise e, st1).
Proof.
  intros He Hn Hu. unfold update_character. unfold bind at 1.
  rewrite (load_character_found _ _ _ He).
  change (name (extract_character_form r (Some (set_id cid existing))))
    with (name (extract_character_form r None)).
  rewrite (name_nonempty_truthy _ Hn). cbn [negb]. unfold bind at 1.
  cbn [image set_id]. by rewrite Hu.
Qed.

Lemma upload_loses_dot_raises r cid previous_image st :
  upload_loses_dot r ->
  handle_image_upload r cid previous_image st = (Raise IndexError, st).
Proof. intros (f & Hf & Ha & Hd). by eapply handle_image_upload_index_error. Qed.

Lemma upload_returns r cid previous_image st :
  ~ upload_loses_dot r ->
  exists img st1,
    handle_image_upload r cid previous_image st = (Ok img, st1)
    /\ data_dir st1 = data_dir st.
Proof.
  intros Hno.
  destruct (handle_image_upload_outcome r cid previous_image st)
    as [[_ H] | [(f & _ & _ & _ & H) | [(f & ext & _ & _ & _ & _ & H) | [Hl _]]]];
    [by do 2 eexists; rewrite H..|done].
Qed.

(** X5. The requests of the four routes without POST -- the list, the
    blank form, the view and the edit form -- change neither directory nor
    the flashed messages, however they end; the view and the edit form of
    an existing id answer with the loaded record, id included. *)
Theorem get_requests_change_nothing (q : http_request) (st : state) :
  is_get q = true ->
  snd (dispatch q st) = st
  /\ forall cid data,
      url_id q = Some cid -> data_dir st !! cid = Some data ->
      exists c, id c = Some cid /\ same_document c data
                /\ (fst (dispatch q st) = Ok (render_view c)
                    \/ fst (dispatch q st)
                       = Ok (render_form c (update_character_url cid) "Salvar alterações")).
Proof.
  destruct q as [| | | cid | cid | |]; try discriminate; intros _; cbn [dispatch url_id].
  - done.
  - done.
  - split.
    + destruct (data_dir st !! cid) as [d|] eqn:H.
      * by rewrite (view_character_found _ _ _ H).
      * by rewrite (view_character_missing _ _ H).
    + intros ? data [= <-] H. exists (set_id cid data).
      rewrite (view_character_found _ _ _ H). repeat split; auto.
  - split.
    + destruct (data_dir st !! cid) as [d|] eqn:H.
      * by rewrite (edit_character_found _ _ _ H).
      * by rewrite (edit_character_missing _ _ H).
    + intros ? data [= <-] H. exists (set_id cid data).
      rewrite (edit_character_found _ _ _ H). repeat split; auto.
Qed.

Lemma get_requests_change_nothing_witness :
  is_get (GET_edit_character "a1") = true
  /\ snd (dispatch (GET_edit_character "a1") anna_state) = anna_state
  /\ forall cid data,
      url_id (GET_edit_character "a1") = Some cid ->
      data_dir anna_state !! cid = Some data ->
      exists c, id c = Some cid /\ same_document c data
                /\ (fst (dispatch (GET_edit_character "a1") anna_state) = Ok (render_view c)
                    \/ fst (dispatch (GET_edit_character "a1") anna_state)
                       = Ok (render_form c (update_character_url cid) "Salvar alterações")).
Proof.
  split; [reflexivity|].
  apply (get_requests_change_nothing (GET_edit_character "a1") anna_state).
  reflexivity.
Defined.

(** X6. A view, edit, update or delete request whose id has no record file
    changes nothing, whatever form and upload it carries: it ends in 404
    when the file name [<id>.json] is within the limit of the host, and in
    the [OSError] of the existence test when the name is too long. *)
Theorem unknown_id_is_404 (q : http_request) (cid : string) (st : state) :
  url_id q = Some cid ->
  data_dir st !! cid = None ->
  dispatch q st
  = (if name_too_long (cid +:+ ".json") then Raise OSError else Abort 404%nat, st).
Proof.
  intros Hq Hm. destruct q; try discriminate; injection Hq as ->; cbn [dispatch].
  - by apply view_character_missing.
  - by apply edit_character_missing.
  - by apply update_character_missing.
  - by apply delete_character_missing.
Qed.

Lemma unknown_id_is_404_witness :
  let q := POST_update_character "b2" (sample_request "Bob" "bob.png") in
  (url_id q = Some "b2"
   /\ data_dir anna_state !! "b2" = None
   /\ dispatch q anna_state = (Abort 404%nat, anna_state))
  /\ (url_id (GET_view_character long_id) = Some long_id
      /\ data_dir anna_state !! long_id = None
      /\ dispatch (GET_view_character long_id) anna_state = (Raise OSError, anna_state)).
Proof.
  split.
  - split; [reflexivity|]. split; [reflexivity|].
    apply (unknown_id_is_404 (POST_update_character "b2" (sample_request "Bob" "bob.png"))
             "b2" anna_state); reflexivity.
  - split; [reflexivity|]. split; [vm_compute; reflexivity|].
    apply (unknown_id_is_404 (GET_view_character long_id) long_id anna_state);
      vm_compute; reflexivity.
Defined.

(** The ways a create request ends. *)
Lemma create_character_outcome uuid r st :
  (name (extract_character_form r None) = ""
   /\ create_character uuid r st
      = (Ok (redirect new_character_url),
         {| data_dir := data_dir st; upload_folder := upload_folder st;
            flashes := flashes st ++ [name_required] |}))
  \/ (name (extract_character_form r None) <> "" /\ upload_loses_dot r
      /\ create_character uuid r st = (Raise IndexError, st))
  \/ (name (extract_character_form r None) <> "" /\ ~ upload_loses_dot r
      /\ exists img st1,
          handle_image_upload r uuid None st = (Ok img, st1)
          /\ create_character uuid r st
             = (Ok (redirect (view_character_url uuid)),
                {| data_dir := <[uuid := set_image img (extract_character_form r None)]>
                                 (data_dir st1);
                   upload_folder := upload_folder st1;
                   flashes := flashes st1 ++ [("Personagem criado com sucesso!", success)] |})).
Proof.
  destruct (decide (name (extract_character_form r None) = "")) as [Hn|Hn].
  { left. split; [done|]. by apply create_character_no_name. }
  right.
  destruct (handle_image_upload_outcome r uuid None st)
    as [[_ H] | [(f & _ & _ & _ & H) | [(f & ext & _ & _ & _ & _ & H) | [Hl H]]]].
  4: { left. split; [done|]. split; [done|]. by eapply create_character_raises. }
  all: right; split; [done|]; split;
    [intros Hl; by rewrite (upload_loses_dot_raises _ _ _ _ Hl) in H|];
    do 2 eexists; split; [exact H|]; by eapply create_character_saved.
Qed.

(** The ways an update request on an existing id ends. *)
Lemma update_character_outcome cid r st existing :
  data_dir st !! cid = Some existing ->
  (name (extract_character_form r None) = ""
   /\ update_character cid r st
      = (Ok (redirect (edit_character_url cid)),
         {| data_dir := data_dir st; upload_folder := upload_folder st;
            flashes := flashes st ++ [name_required] |}))
  \/ (name (extract_character_form r None) <> "" /\ upload_loses_dot r
      /\ update_character cid r st = (Raise IndexError, st))
  \/ (name (extract_character_form r None) <> "" /\ ~ upload_loses_dot r
      /\ exists img st1,
          handle_image_upload r cid (image existing) st = (Ok img, st1)
          /\ update_character cid r st
             = (Ok (redirect (view_character_url cid)),
                {| data_dir :=
                     <[cid := set_image img
                                (extract_character_form r (Some (set_id cid existing)))]>
                       (data_dir st1);
                   upload_folder := upload_folder st1;
                   flashes := flashes st1 ++ [("Personagem atualizado!", success)] |})).
Proof.
  intros He.
  destruct (decide (name (extract_character_form r None) = "")) as [Hn|Hn].
  { left. split; [done|]. by apply (update_character_no_name cid r st existing). }
  right.
  destruct (handle_image_upload_outcome r cid (image existing) st)
    as [[_ H] | [(f & _ & _ & _ & H) | [(f & ext & _ & _ & _ & _ & H) | [Hl H]]]].
  4: { left. split; [done|]. split; [done|]. by eapply update_character_raises. }
  all: right; split; [done|]; split;
    [intros Hl; by rewrite (upload_loses_dot_raises _ _ _ _ Hl) in H|];
    do 2 eexists; split; [exact H|]; by eapply update_character_saved.
Qed.

Lemma handle_image_upload_data_dir r cid previous_image st out st1 :
  handle_image_upload r cid previous_image st = (out, st1) -> data_dir st1 = data_dir st.
Proof.
  destruct (handle_image_upload_outcome r cid previous_image st)
    as [[_ H] | [(f & _ & _ & _ & H) | [(f & ext & _ & _ & _ & _ & H) | [_ H]]]];
    rewrite H; by intros [= <- <-].
Qed.


(** X8. A request ends in [IndexError] exactly when it is a create, or an
    update of an existing id, with a non-empty name and an upload that the
    allow-list accepts and that loses its dot when sanitised. *)
Theorem exception_iff_upload_loses_dot (q : http_request) (st : state) :
  fst (dispatch q st) = Raise IndexError
  <-> exists cid r,
      (q = POST_create_character cid r
       \/ q = POST_update_character cid r /\ is_Some (data_dir st !! cid))
      /\ name (extract_character_form r None) <> ""
      /\ upload_loses_dot r.
Proof.
  assert (Hno : forall cid, (no_record cid : outcome response) <> Raise IndexError).
  { intros cid. unfold no_record. by destruct (name_too_long _). }
  split.
  - intros He.
    destruct q as [| | uuid r | cid | cid | cid r | cid]; cbn [dispatch] in He.
    + done.
    + done.
    + destruct (create_character_outcome uuid r st)
        as [[_ H] | [(Hn & Hl & H) | (_ & _ & img & st1 & _ & H)]];
        rewrite H in He; try done.
      exists uuid, r. eauto.
    + destruct (data_dir st !! cid) eqn:Hr.
      * by rewrite (view_character_found _ _ _ Hr) in He.
      * rewrite (view_character_missing _ _ Hr) in He. by apply Hno in He.
    + destruct (data_dir st !! cid) eqn:Hr.
      * by rewrite (edit_character_found _ _ _ Hr) in He.
      * rewrite (edit_character_missing _ _ Hr) in He. by apply Hno in He.
    + destruct (data_dir st !! cid) as [existing|] eqn:Hex.
      * destruct (update_character_outcome cid r st existing Hex)
          as [[_ H] | [(Hn & Hl & H) | (_ & _ & img & st1 & _ & H)]];
          rewrite H in He; try done.
        exists cid, r. split; [right; split; [done|by rewrite Hex]|done].
      * rewrite (update_character_missing _ _ _ Hex) in He. by apply Hno in He.
    + destruct (data_dir st !! cid) as [existing|] eqn:Hex.
      * by rewrite (delete_character_found cid existing st Hex) in He.
      * rewrite (delete_character_missing _ _ Hex) in He. by apply Hno in He.
  - intros (cid & r & [-> | [-> [existing Hex]]] & Hn & Hl); cbn [dispatch].
    + by rewrite (create_character_raises cid r st IndexError st Hn
                    (upload_loses_dot_raises _ _ _ _ Hl)).
    + by rewrite (update_character_raises cid r st existing IndexError st Hex Hn
                    (upload_loses_dot_raises _ _ _ _ Hl)).
Qed.

(** The data directory after a request: as before, or with the record of
    the request's target written or removed. *)
Lemma dispatch_data_dir q st :
  data_dir (snd (dispatch q st)) = data_dir st
  \/ exists cid, target q = Some cid
       /\ ((exists c, data_dir (snd (dispatch q st)) = <[cid := c]> (data_dir st))
           \/ data_dir (snd (dispatch q st)) = delete cid (data_dir st)).
Proof.
  destruct q as [| | uuid r | cid | cid | cid r | cid]; cbn [dispatch].
  - by left.
  - by left.
  - destruct (create_character_outcome uuid r st)
      as [[_ ->] | [(_ & _ & ->) | (_ & _ & img & st1 & Hu & ->)]]; [by left..|].
    right. exists uuid. split; [done|]. left. eexists. cbn [snd data_dir].
    by rewrite (handle_image_upload_data_dir _ _ _ _ _ _ Hu).
  - left. destruct (data_dir st !! cid) eqn:Hr;
      [by rewrite (view_character_found _ _ _ Hr)
      |rewrite (view_character_missing _ _ Hr); cbn [fst snd];
       first [done | unfold no_record; by destruct (name_too_long _)]].
  - left. destruct (data_dir st !! cid) eqn:Hr;
      [by rewrite (edit_character_found _ _ _ Hr)
      |rewrite (edit_character_missing _ _ Hr); cbn [fst snd];
       first [done | unfold no_record; by destruct (name_too_long _)]].
  - destruct (data_dir st !! cid) as [existing|] eqn:He.
    + destruct (update_character_outcome cid r st existing He)
        as [[_ ->] | [(_ & _ & ->) | (_ & _ & img & st1 & Hu & ->)]]; [by left..|].
      right. exists cid. split; [done|]. left. eexists. cbn [snd data_dir].
      by rewrite (handle_image_upload_data_dir _ _ _ _ _ _ Hu).
    + left. rewrite (update_character_missing _ _ _ He); cbn [fst snd];
       first [done | unfold no_record; by destruct (name_too_long _)].
  - destruct (data_dir st !! cid) as [existing|] eqn:He.
    + right. exists cid. split; [done|]. right.
      by rewrite (delete_character_found cid existing).
    + left. rewrite (delete_character_missing _ _ He); cbn [fst snd];
       first [done | unfold no_record; by destruct (name_too_long _)].
Qed.

(** X9. A request changes no record file but the one of its own id: the
    record of every other id is after the request what it was before. *)
Theorem other_records_untouched (q : http_request) (st : state) (other : string) :
  target q <> Some other ->
  data_dir (snd (dispatch q st)) !! other = data_dir st !! other.
Proof.
  intros Ht.
  destruct (dispatch_data_dir q st) as [-> | (cid & Hc & [[c ->] | ->])]; [done|..].
  - apply lookup_insert_ne. congruence.
  - apply lookup_delete_ne. congruence.
Qed.

Lemma other_records_untouched_witness :
  let q := POST_create_character "b2" (sample_request "Bob" "bob.png") in
  target q <> Some "a1"
  /\ data_dir (snd (dispatch q anna_state)) !! "a1" = data_dir anna_state !! "a1".
Proof.
  assert (H : target (POST_create_character "b2" (sample_request "Bob" "bob.png"))
              <> Some "a1") by discriminate.
  split; [exact H|].
  exact (other_records_untouched _ anna_state "a1" H).
Defined.

(** *** Round trips *)

Lemma path_segment_no_slash cid :
  path_segment cid = true -> cid <> "" /\ Py.contains "/" cid = false.
Proof.
  unfold path_segment. intros [Ht Hs]%andb_true_iff.
  apply negb_true_iff in Hs. split; [|done]. by intros ->.
Qed.

Lemma path_name_of_reference cid ext :
  path_segment cid = true -> ext ∈ ALLOWED_EXTENSIONS ->
  path_name ("uploads/" +:+ cid +:+ "." +:+ ext) = cid +:+ "." +:+ ext.
Proof.
  intros [Hne Hs]%path_segment_no_slash He. apply path_name_uploads.
  - rewrite contains_app, Hs. unfold ALLOWED_EXTENSIONS in He.
    repeat (apply elem_of_cons in He as [->|He]; [reflexivity|]).
    by apply elem_of_nil in He.
  - intros E. apply app_empty_r in E. discriminate E.
  - destruct cid as [|a [|b cid]]; [done| |discriminate].
    unfold ALLOWED_EXTENSIONS in He.
    repeat (apply elem_of_cons in He as [->|He]; [discriminate|]).
    by apply elem_of_nil in He.
Qed.

(** X10. A create request with a non-empty name whose upload does not lose
    its dot is answered by the redirect to the new character, and viewing
    that id then shows the extracted record with the new id; its image is
    none, or [uploads/<id>.<extension>] with an allowed extension. *)
Theorem create_then_view_round_trip (uuid : string) (r : request) (st : state) :
  name (extract_character_form r None) <> "" ->
  ~ upload_loses_dot r ->
  exists st' img,
    create_character uuid r st = (Ok (redirect (view_character_url uuid)), st')
    /\ view_character uuid st'
       = (Ok (render_view (set_id uuid (set_image img (extract_character_form r None)))), st')
    /\ (img = None
        \/ exists ext, ext ∈ ALLOWED_EXTENSIONS
                       /\ img = Some ("uploads/" +:+ uuid +:+ "." +:+ ext)).
Proof.
  intros Hn Hl.
  assert (Hview : forall img st1,
             handle_image_upload r uuid None st = (Ok img, st1) ->
             exists st',
               create_character uuid r st = (Ok (redirect (view_character_url uuid)), st')
               /\ view_character uuid st'
                  = (Ok (render_view
                           (set_id uuid (set_image img (extract_character_form r None)))),
                     st')).
  { intros img st1 Hu.
    destruct (create_then_load uuid r st img st1 Hn Hu) as (st' & ? & _ & ?). eauto. }
  destruct (handle_image_upload_outcome r uuid None st)
    as [[_ H] | [(f & _ & _ & _ & H) | [(f & ext & _ & _ & _ & He & H) | [Hl' _]]]];
    [| | |done].
  - destruct (Hview _ _ H) as (st' & ? & ?). exists st', None. eauto.
  - destruct (Hview _ _ H) as (st' & ? & ?). exists st', None. eauto.
  - destruct (Hview _ _ H) as (st' & ? & ?). eexists st', _.
    split; [done|]. split; [done|]. right. by exists (Py.lower ext).
Qed.

Lemma create_then_view_round_trip_witness :
  let r := sample_request "Bob" "bob.GIF" in
  name (extract_character_form r None) <> ""
  /\ ~ upload_loses_dot r
  /\ exists st' img,
      create_character "b2" r anna_state = (Ok (redirect (view_character_url "b2")), st')
      /\ view_character "b2" st'
         = (Ok (render_view (set_id "b2" (set_image img (extract_character_form r None)))), st')
      /\ (img = None
          \/ exists ext, ext ∈ ALLOWED_EXTENSIONS
                         /\ img = Some ("uploads/" +:+ "b2" +:+ "." +:+ ext)).
Proof.
  pose (r := sample_request "Bob" "bob.GIF").
  assert (H1 : name (extract_character_form r None) <> "") by discriminate.
  assert (H2 : ~ upload_loses_dot r).
  { intros (f & Hf & _ & Hd). injection Hf as <-. discriminate Hd. }
  split; [exact H1|]. split; [exact H2|].
  exact (create_then_view_round_trip "b2" r anna_state H1 H2).
Defined.



(** X12. Creating a character under a fresh id and deleting it again
    restores both directories: when the id is a path segment with no record
    file and no image file of an allowed extension, the delete succeeds and
    the data directory and the upload folder are what they were before the
    create, upload or not. *)
Theorem create_then_delete_restores (uuid : string) (r : request) (st : state) :
  path_segment uuid = true ->
  data_dir st !! uuid = None ->
  (forall ext, ext ∈ ALLOWED_EXTENSIONS -> upload_folder st !! (uuid +:+ "." +:+ ext) = None) ->
  name (extract_character_form r None) <> "" ->
  ~ upload_loses_dot r ->
  let st1 := snd (create_character uuid r st) in
  fst (delete_character uuid st1) = Ok (redirect index_url)
  /\ data_dir (snd (delete_character uuid st1)) = data_dir st
  /\ upload_folder (snd (delete_character uuid st1)) = upload_folder st.
Proof.
  intros Hseg Hfresh Hfiles Hn Hl st1.
  assert (Hdel : forall img st0,
             handle_image_upload r uuid None st = (Ok img, st0) ->
             fst (delete_character uuid st1) = Ok (redirect index_url)
             /\ data_dir (snd (delete_character uuid st1)) = data_dir st
             /\ upload_folder (snd (delete_character uuid st1))
                = (if truthy_opt img
                   then delete (path_name (default "" img)) (upload_folder st0)
                   else upload_folder st0)).
  { intros img st0 Hu. unfold st1.
    rewrite (create_character_saved uuid r st img st0 Hn Hu). cbn [snd].
    erewrite delete_character_found; [|cbn [data_dir]; apply lookup_insert_eq].
    cbn [fst snd data_dir upload_folder image set_image].
    rewrite (handle_image_upload_data_dir _ _ _ _ _ _ Hu).
    by rewrite delete_insert_id. }
  destruct (handle_image_upload_outcome r uuid None st)
    as [[_ H] | [(f & _ & _ & _ & H) | [(f & ext & _ & _ & _ & He & H) | [Hl' _]]]];
    [| | |done].
  - destruct (Hdel _ _ H) as (? & ? & ->). done.
  - destruct (Hdel _ _ H) as (? & ? & ->). done.
  - destruct (Hdel _ _ H) as (? & ? & ->). do 2 (split; [done|]).
    cbn [truthy_opt andb upload_folder default from_option Datatypes.id].
    rewrite (path_name_of_reference uuid (Py.lower ext) Hseg He).
    change (Py.truthy ("uploads/" +:+ uuid +:+ "." +:+ Py.lower ext)) with true.
    cbn iota. apply delete_insert_id. by apply Hfiles.
Qed.

Lemma create_then_delete_restores_witness :
  let r := sample_request "Bob" "bob.GIF" in
  let st1 := snd (create_character "b2" r anna_state) in
  fst (delete_character "b2" st1) = Ok (redirect index_url)
  /\ data_dir (snd (delete_character "b2" st1)) = data_dir anna_state
  /\ upload_folder (snd (delete_character "b2" st1)) = upload_folder anna_state.
Proof.
  apply (create_then_delete_restores "b2" (sample_request "Bob" "bob.GIF") anna_state).
  - reflexivity.
  - reflexivity.
  - intros ext H. unfold ALLOWED_EXTENSIONS in H.
    repeat (apply elem_of_cons in H as [->|H]; [reflexivity|]).
    by apply elem_of_nil in H.
  - discriminate.
  - intros (f & Hf & _ & Hd). injection Hf as <-. discriminate Hd.
Defined.

(** *** The invariant of the directories *)

Lemma allowed_extension_no_dot ext :
  ext ∈ ALLOWED_EXTENSIONS -> Py.contains "." ext = false.
Proof.
  intros He. unfold ALLOWED_EXTENSIONS in He.
  repeat (apply elem_of_cons in He as [->|He]; [reflexivity|]).
  by apply elem_of_nil in He.
Qed.

(** The file names of two characters differ. *)
Lemma image_file_inj cid ext cid' ext' :
  ext ∈ ALLOWED_EXTENSIONS -> ext' ∈ ALLOWED_EXTENSIONS ->
  cid +:+ "." +:+ ext = cid' +:+ "." +:+ ext' -> cid = cid' /\ ext = ext'.
Proof.
  intros He He' E.
  pose proof (rsplit_last_app "." cid ext (allowed_extension_no_dot _ He)) as H1.
  pose proof (rsplit_last_app "." cid' ext' (allowed_extension_no_dot _ He')) as H2.
  change (cid +:+ String "." ext) with (cid +:+ "." +:+ ext) in H1.
  change (cid' +:+ String "." ext') with (cid' +:+ "." +:+ ext') in H2.
  rewrite E in H1. rewrite H1 in H2. by injection H2.
Qed.

Lemma reference_ok_path_name cid img uploads :
  path_segment cid = true -> reference_ok cid (Some img) uploads ->
  img <> "" /\ exists ext, ext ∈ ALLOWED_EXTENSIONS
                           /\ img = "uploads/" +:+ cid +:+ "." +:+ ext
                           /\ path_name img = cid +:+ "." +:+ ext.
Proof.
  intros Hseg (ext & He & -> & _). split; [done|].
  exists ext. do 2 (split; [done|]). by apply path_name_of_reference.
Qed.

(** The upload step keeps references in order: the reference it returns
    is in order when the previous one was, and it removes no file of
    another character. *)
Lemma upload_step_keeps_references r cid previous_image st img st1 :
  path_segment cid = true ->
  reference_ok cid previous_image (upload_folder st) ->
  handle_image_upload r cid previous_image st = (Ok img, st1) ->
  reference_ok cid img (upload_folder st1)
  /\ forall cid' im, cid' <> cid ->
                     reference_ok cid' im (upload_folder st) ->
                     reference_ok cid' im (upload_folder st1).
Proof.
  intros Hseg Hprev Hu.
  destruct (handle_image_upload_outcome r cid previous_image st)
    as [[_ H] | [(f & _ & _ & _ & H) | [(f & ext & _ & _ & _ & He & H) | [_ H]]]];
    rewrite H in Hu; [..|done]; injection Hu as <- <-; cbn [upload_folder].
  - done.
  - done.
  - set (final_name := cid +:+ "." +:+ Py.lower ext).
    destruct (truthy_opt previous_image
              && negb (bool_decide (previous_image = Some ("uploads/" +:+ final_name))))
      eqn:Hrep.
    + apply andb_true_iff in Hrep as [Ht Hd].
      apply truthy_opt_true in Ht as (img0 & -> & _).
      apply negb_true_iff, bool_decide_eq_false in Hd.
      destruct (reference_ok_path_name _ _ _ Hseg Hprev) as (_ & e0 & He0 & Hi & Hp).
      cbn [default from_option Datatypes.id]. rewrite Hp.
      assert (Hne : cid +:+ "." +:+ e0 <> final_name).
      { intros E. apply Hd. by rewrite Hi, E. }
      split.
      * exists (Py.lower ext). do 2 (split; [done|]).
        rewrite lookup_delete_ne by done. rewrite lookup_insert_eq. by eexists.
      * intros cid' [im|] Hc; [|done]. intros (e' & He' & -> & Hs).
        exists e'. do 2 (split; [done|]).
        apply lookup_delete_is_Some. split.
        -- intros E. by apply image_file_inj in E as [-> _].
        -- apply lookup_insert_is_Some'. by right.
    + split.
      * exists (Py.lower ext). do 2 (split; [done|]).
        rewrite lookup_insert_eq. by eexists.
      * intros cid' [im|] Hc; [|done]. intros (e' & He' & -> & Hs).
        exists e'. do 2 (split; [done|]).
        apply lookup_insert_is_Some'. by right.
Qed.

Lemma store_ok_same_files st st' :
  data_dir st' = data_dir st -> upload_folder st' = upload_folder st ->
  store_ok st -> store_ok st'.
Proof. unfold store_ok. intros -> ->. done. Qed.

Lemma store_ok_write cid r existing img st st1 :
  path_segment cid = true ->
  reference_ok cid existing (upload_folder st) ->
  handle_image_upload r cid existing st = (Ok img, st1) ->
  forall c msgs,
    id c = None -> image c = img ->
    store_ok st ->
    store_ok {| data_dir := <[cid := c]> (data_dir st1);
                upload_folder := upload_folder st1; flashes := msgs |}.
Proof.
  intros Hseg Hprev Hu c msgs Hid Him Hok cid' c'. cbn [data_dir upload_folder].
  rewrite (handle_image_upload_data_dir _ _ _ _ _ _ Hu).
  destruct (upload_step_keeps_references _ _ _ _ _ _ Hseg Hprev Hu) as [Hnew Hothers].
  destruct (decide (cid' = cid)) as [->|Hne].
  - rewrite lookup_insert_eq. intros [= <-]. by rewrite Him.
  - rewrite lookup_insert_ne by done. intros Hl.
    destruct (Hok cid' c' Hl) as (? & ? & ?). auto.
Qed.

(** One request keeps the invariant of the directories. *)
Lemma dispatch_step_ok (q : http_request) (st : state) :
  store_ok st -> routable q -> store_ok (snd (dispatch q st)).
Proof.
  intros Hok Hq.
  destruct q as [| | uuid r | cid | cid | cid r | cid]; cbn [dispatch routable] in *.
  - done.
  - done.
  - destruct (create_character_outcome uuid r st)
      as [[_ ->] | [(_ & _ & ->) | (_ & _ & img & st1 & Hu & ->)]]; cbn [snd].
    + by apply (store_ok_same_files st).
    + done.
    + by apply (store_ok_write uuid r None img st st1).
  - destruct (data_dir st !! cid) eqn:Hr;
      [by rewrite (view_character_found _ _ _ Hr)
      |rewrite (view_character_missing _ _ Hr); cbn [fst snd];
       first [done | unfold no_record; by destruct (name_too_long _)]].
  - destruct (data_dir st !! cid) eqn:Hr;
      [by rewrite (edit_character_found _ _ _ Hr)
      |rewrite (edit_character_missing _ _ Hr); cbn [fst snd];
       first [done | unfold no_record; by destruct (name_too_long _)]].
  - destruct (data_dir st !! cid) as [existing|] eqn:He.
    + destruct (Hok cid existing He) as (Hseg & _ & Href).
      destruct (update_character_outcome cid r st existing He)
        as [[_ ->] | [(_ & _ & ->) | (_ & _ & img & st1 & Hu & ->)]]; cbn [snd].
      * by apply (store_ok_same_files st).
      * done.
      * by apply (store_ok_write cid r (image existing) img st st1).
    + rewrite (update_character_missing _ _ _ He); cbn [fst snd];
       first [done | unfold no_record; by destruct (name_too_long _)].
  - destruct (data_dir st !! cid) as [existing|] eqn:He.
    + destruct (Hok cid existing He) as (Hseg & _ & Href).
      rewrite (delete_character_found cid existing st He). cbn [snd].
      intros cid' c'. cbn [data_dir upload_folder].
      intros [Hne Hl]%lookup_delete_Some.
      destruct (Hok cid' c' Hl) as (Hseg' & Hid' & Href'). do 2 (split; [done|]).
      destruct (truthy_opt (image existing)) eqn:Ht; [|done].
      apply truthy_opt_true in Ht as (img0 & Hi & _). rewrite Hi in *.
      destruct (reference_ok_path_name _ _ _ Hseg Href) as (_ & e0 & He0 & _ & Hp).
      cbn [default from_option Datatypes.id]. rewrite Hp.
      destruct (image c') as [im|]; [|done].
      destruct Href' as (e' & He' & -> & Hs). exists e'. do 2 (split; [done|]).
      apply lookup_delete_is_Some. split; [|done].
      intros E. by apply image_file_inj in E as [-> _].
    + rewrite (delete_character_missing _ _ He); cbn [fst snd];
       first [done | unfold no_record; by destruct (name_too_long _)].
Qed.

Lemma serve_ok qs st :
  store_ok st -> Forall routable qs -> store_ok (serve qs st).
Proof.
  revert st. induction qs as [|q qs IH]; intros st Hok Hqs; [done|].
  inversion Hqs as [|? ? Hq Hqs']; subst. cbn [serve].
  apply IH; [|done]. by apply dispatch_step_ok.
Qed.

(** X13. Requests keep the invariant of the directories: when each
    record file has a path segment as id, stores no id key, and has an image
    reference that is none or [uploads/<id>.<allowed extension>] with that
    file in the upload folder, the same holds after any sequence of requests
    whose ids are path segments, however each request ends. *)
Theorem requests_keep_store_ok (qs : list http_request) (st : state) :
  store_ok st -> Forall routable qs -> store_ok (serve qs st).
Proof.
  intros Hok Hqs. revert st Hok.
  induction Hqs as [|q qs Hq _ IH]; intros st Hok; cbn [serve]; [done|].
  apply IH. by apply dispatch_step_ok.
Qed.

Lemma store_ok_anna_state : store_ok anna_state.
Proof.
  intros cid c Hl.
  change (data_dir anna_state) with ({[ "a1" := anna ]} : gmap string character) in Hl.
  apply lookup_singleton_Some in Hl as [<- <-].
  split; [reflexivity|]. split; [reflexivity|].
  exists "png". split; [|split; [reflexivity|by eexists]].
  unfold ALLOWED_EXTENSIONS. apply elem_of_cons. by left.
Qed.

Lemma requests_keep_store_ok_witness :
  let qs := [POST_update_character "a1" (sample_request "Anna B" "new.JPG");
             POST_create_character "b2" (sample_request "Bob" ".png");
             POST_delete_character "a1"] in
  store_ok anna_state /\ Forall routable qs /\ store_ok (serve qs anna_state).
Proof.
  assert (H : Forall routable
                [POST_update_character "a1" (sample_request "Anna B" "new.JPG");
                 POST_create_character "b2" (sample_request "Bob" ".png");
                 POST_delete_character "a1"]).
  { repeat constructor. }
  split; [exact store_ok_anna_state|]. split; [exact H|].
  exact (requests_keep_store_ok _ anna_state store_ok_anna_state H).
Defined.

Lemma store_ok_empty_state : store_ok empty_state.
Proof. intros cid c Hl. cbn in Hl. by rewrite lookup_empty in Hl. Qed.

(** X14. From empty directories, after any sequence of requests whose ids
    are path segments: a character that the view shows with an image
    reference has that reference in the form [uploads/<id>.<extension>],
    and the file it names is in the upload folder. *)
Theorem viewed_image_exists
    (qs : list http_request) (cid : string) (c : character) (img : string) :
  Forall routable qs ->
  fst (view_character cid (serve qs empty_state)) = Ok (render_view c) ->
  image c = Some img ->
  id c = Some cid
  /\ (exists ext, ext ∈ ALLOWED_EXTENSIONS /\ img = "uploads/" +:+ cid +:+ "." +:+ ext)
  /\ is_Some (upload_folder (serve qs empty_state) !! path_name img).
Proof.
  intros Hqs Hview Him.
  pose proof (serve_ok qs empty_state store_ok_empty_state Hqs) as Hok.
  destruct (data_dir (serve qs empty_state) !! cid) as [d|] eqn:Hd; cycle 1.
  { rewrite (view_character_missing _ _ Hd) in Hview.
    by apply no_record_not_ok in Hview. }
  rewrite (view_character_found _ _ _ Hd) in Hview.
  cbn in Hview. injection Hview as <-.
  destruct (Hok cid d Hd) as (Hseg & _ & Href).
  cbn [image set_id] in Him. rewrite Him in Href.
  destruct (reference_ok_path_name _ _ _ Hseg Href) as (_ & ext & He & Hi & Hp).
  split; [done|]. split; [by exists ext|].
  destruct Href as (ext' & He' & Hi' & Hs). rewrite Hp.
  rewrite Hi in Hi'. apply (inj (String.app "uploads/")) in Hi'.
  by rewrite Hi'.
Qed.

Lemma viewed_image_exists_witness :
  let qs := [POST_create_character "b2" (sample_request "Bob" "bob.GIF")] in
  exists c,
    Forall routable qs
    /\ fst (view_character "b2" (serve qs empty_state)) = Ok (render_view c)
    /\ image c = Some "uploads/b2.gif"
    /\ id c = Some "b2"
    /\ (exists ext, ext ∈ ALLOWED_EXTENSIONS
                    /\ "uploads/b2.gif" = "uploads/" +:+ "b2" +:+ "." +:+ ext)
    /\ is_Some (upload_folder (serve qs empty_state) !! path_name "uploads/b2.gif").
Proof.
  intros qs.
  assert (H : Forall routable qs) by repeat constructor.
  eexists. split; [exact H|]. split; [reflexivity|]. split; [reflexivity|].
  apply (viewed_image_exists qs "b2" _ "uploads/b2.gif" H); reflexivity.
Defined.

(** *** The listing and the record files *)

Lemma load_characters_elem st c :
  c ∈ sorted (fun item => Py.lower (name item))
        ((fun '(stem, data) => set_id stem data) <$> map_to_list (data_dir st))
  <-> exists cid d, data_dir st !! cid = Some d /\ c = set_id cid d.
Proof.
  rewrite sorted_perm, list_elem_of_fmap. split.
  - intros ([stem data] & -> & Hin). apply elem_of_map_to_list in Hin. eauto.
  - intros (stem & data & Hl & ->). exists (stem, data).
    split; [done|]. by apply elem_of_map_to_list.
Qed.

Lemma load_characters_length st :
  length (sorted (fun item => Py.lower (name item))
            ((fun '(stem, data) => set_id stem data) <$> map_to_list (data_dir st)))
  = size (data_dir st).
Proof. rewrite sorted_perm, length_fmap. apply length_map_to_list. Qed.

(** X15. The list and the single load agree: every character of the list
    carries an id under which [load_character] returns exactly that
    character, every character that can be loaded is in the list, and no
    two characters of the list have the same id. *)
Theorem listing_agrees_with_load (st : state) :
  exists l,
    load_characters st = (Ok l, st)
    /\ Forall (fun c => exists cid, id c = Some cid
                                   /\ load_character cid st = (Ok c, st)) l
    /\ (forall cid c, load_character cid st = (Ok c, st) -> c ∈ l)
    /\ NoDup (id <$> l).
Proof.
  eexists. split; [apply load_characters_run|]. split; [|split].
  - apply Forall_forall. intros c (cid & d & Hl & ->)%load_characters_elem.
    exists cid. split; [done|]. by apply load_character_found.
  - intros cid c Hload. apply load_characters_elem.
    rewrite load_character_outcome in Hload.
    destruct (data_dir st !! cid) as [d|] eqn:Hd.
    + injection Hload as <-. eauto.
    + injection Hload as Hload. by apply no_record_not_ok in Hload.
  - rewrite sorted_perm.
    assert (E : id <$> ((fun '(stem, data) => set_id stem data) <$> map_to_list (data_dir st))
                = Some <$> (map_to_list (data_dir st)).*1).
    { rewrite <- !list_fmap_compose. apply list_fmap_ext. by intros ? [k d]. }
    rewrite E. apply (NoDup_fmap_2 Some), NoDup_fst_map_to_list.
Qed.

(** X16. After a delete of an existing character the list holds one
    character less: those it held before, without the one of the deleted
    id. *)
Theorem listing_after_delete (cid : string) (st : state) (existing : character) :
  data_dir st !! cid = Some existing ->
  let st' := snd (delete_character cid st) in
  exists l l',
    load_characters st = (Ok l, st)
    /\ load_characters st' = (Ok l', st')
    /\ (forall c, c ∈ l' <-> c ∈ l /\ id c <> Some cid)
    /\ length l = S (length l').
Proof.
  intros He st'. do 2 eexists.
  split; [apply load_characters_run|]. split; [apply load_characters_run|].
  assert (Hdd : data_dir st' = delete cid (data_dir st)).
  { unfold st'. by rewrite (delete_character_found cid existing st He). }
  split.
  - intros c. rewrite !load_characters_elem, Hdd. split.
    + intros (cid' & d & [Hne Hl]%lookup_delete_Some & ->).
      split; [eauto|]. cbn. congruence.
    + intros [(cid' & d & Hl & ->) Hne]. exists cid', d. split; [|done].
      apply lookup_delete_Some. split; [|done]. cbn in Hne. congruence.
  - rewrite !load_characters_length, Hdd.
    rewrite map_size_delete_Some by (by rewrite He).
    assert (size (data_dir st) <> 0%nat); [|lia].
    apply map_size_non_empty_iff. intros E. by rewrite E, lookup_empty in He.
Qed.

Lemma listing_after_delete_witness :
  let st' := snd (delete_character "a1" anna_state) in
  data_dir anna_state !! "a1" = Some anna
  /\ exists l l',
      load_characters anna_state = (Ok l, anna_state)
      /\ load_characters st' = (Ok l', st')
      /\ (forall c, c ∈ l' <-> c ∈ l /\ id c <> Some "a1")
      /\ length l = S (length l').
Proof.
  split; [reflexivity|].
  exact (listing_after_delete "a1" anna_state anna eq_refl).
Defined.

(** X17. When a request is answered by the redirect to the view of a
    character -- a create or an update that was saved -- the list afterwards
    holds that character as saved, with that id, and besides it the
    characters it held before under other ids. *)
Theorem listing_after_save (q : http_request) (st : state) (cid : string) :
  fst (dispatch q st) = Ok (redirect (view_character_url cid)) ->
  let st' := snd (dispatch q st) in
  exists l l' saved,
    load_characters st = (Ok l, st)
    /\ load_characters st' = (Ok l', st')
    /\ data_dir st' !! cid = Some saved
    /\ (forall c, c ∈ l' <-> c = set_id cid saved \/ (c ∈ l /\ id c <> Some cid)).
Proof.
  intros Hresp st'.
  assert (Hdd : exists saved, data_dir st' = <[cid := saved]> (data_dir st)).
  { unfold st'.
    destruct q as [| | uuid r | cid' | cid' | cid' r | cid']; cbn [dispatch] in *.
    - done.
    - done.
    - destruct (create_character_outcome uuid r st)
        as [[_ H] | [(_ & _ & H) | (_ & _ & img & st1 & Hu & H)]];
        rewrite H in Hresp |- *; try done.
      injection Hresp as <-. eexists. cbn [snd data_dir].
      by rewrite (handle_image_upload_data_dir _ _ _ _ _ _ Hu).
    - destruct (data_dir st !! cid') eqn:Hr.
      + by rewrite (view_character_found _ _ _ Hr) in Hresp.
      + rewrite (view_character_missing _ _ Hr) in Hresp.
        by apply no_record_not_ok in Hresp.
    - destruct (data_dir st !! cid') eqn:Hr.
      + by rewrite (edit_character_found _ _ _ Hr) in Hresp.
      + rewrite (edit_character_missing _ _ Hr) in Hresp.
        by apply no_record_not_ok in Hresp.
    - destruct (data_dir st !! cid') as [existing|] eqn:He.
      + destruct (update_character_outcome cid' r st existing He)
          as [[_ H] | [(_ & _ & H) | (_ & _ & img & st1 & Hu & H)]];
          rewrite H in Hresp |- *; try done.
        injection Hresp as <-. eexists. cbn [snd data_dir].
        by rewrite (handle_image_upload_data_dir _ _ _ _ _ _ Hu).
      + rewrite (update_character_missing _ _ _ He) in Hresp.
        by apply no_record_not_ok in Hresp.
    - destruct (data_dir st !! cid') as [existing|] eqn:He.
      + by rewrite (delete_character_found cid' existing st He) in Hresp.
      + rewrite (delete_character_missing _ _ He) in Hresp.
        by apply no_record_not_ok in Hresp. }
  destruct Hdd as [saved Hdd]. do 2 eexists. exists saved.
  split; [apply load_characters_run|]. split; [apply load_characters_run|].
  split; [rewrite Hdd; apply lookup_insert_eq|].
  intros c. rewrite !load_characters_elem, Hdd. split.
  - intros (cid' & d & Hl & ->). destruct (decide (cid' = cid)) as [->|Hne].
    + rewrite lookup_insert_eq in Hl. injection Hl as <-. by left.
    + rewrite lookup_insert_ne in Hl by done. right. split; [eauto|].
      cbn. congruence.
  - intros [-> | [(cid' & d & Hl & ->) Hne]].
    + exists cid, saved. split; [apply lookup_insert_eq|done].
    + exists cid', d. split; [|done]. rewrite lookup_insert_ne; [done|].
      cbn in Hne. congruence.
Qed.

Lemma listing_after_save_witness :
  let q := POST_create_character "b2" (sample_request "Bob" "bob.GIF") in
  let st' := snd (dispatch q anna_state) in
  fst (dispatch q anna_state) = Ok (redirect (view_character_url "b2"))
  /\ exists l l' saved,
      load_characters anna_state = (Ok l, anna_state)
      /\ load_characters st' = (Ok l', st')
      /\ data_dir st' !! "b2" = Some saved
      /\ (forall c, c ∈ l' <-> c = set_id "b2" saved \/ (c ∈ l /\ id c <> Some "b2")).
Proof.
  split; [reflexivity|].
  exact (listing_after_save (POST_create_character "b2" (sample_request "Bob" "bob.GIF"))
           anna_state "b2" eq_refl).
Defined.

(** *** When the sanitised name loses its dot *)

Lemma solid_kept c :
  solid c = true ->
  is_ascii c = true /\ Py.isspace c = false /\ Ascii.eqb c "/" = false
  /\ filename_char c = true /\ Py.contains c "._" = false.
Proof.
  destruct c as [[] [] [] [] [] [] [] []]; vm_compute; intros H;
    first [discriminate H | repeat split].
Qed.

Lemma not_solid_stripped c :
  filename_char c = true -> solid c = false -> Py.contains c "._" = true.
Proof. unfold solid. intros ->. cbn [andb]. by intros ->%negb_false_iff. Qed.

Lemma all_chars_keep (p q : ascii -> bool) s :
  (forall c, p c = false -> q c = true) ->
  all_chars q (Py.keep p s) = all_chars q s.
Proof.
  intros H. induction s as [|a s IH]; [done|]. simpl.
  destruct (p a) eqn:Hp; simpl; rewrite IH; [done|]. by rewrite (H a Hp).
Qed.

Lemma all_chars_replace_char (q : ascii -> bool) a b s :
  q a = true -> q b = true ->
  all_chars q (Py.replace_char a b s) = all_chars q s.
Proof.
  intros Ha Hb. induction s as [|c s IH]; [done|]. simpl. rewrite IH.
  destruct (Ascii.eqb_spec c a) as [->|]; [|done]. by rewrite Ha, Hb.
Qed.

Lemma all_chars_both (p q r : ascii -> bool) s :
  (forall c, p c = true -> q c = true -> r c = true) ->
  all_chars p s = true -> all_chars q s = true -> all_chars r s = true.
Proof.
  intros H. induction s as [|a s IH]; [done|]. cbn [all_chars].
  intros [Hp Hps]%andb_true_iff [Hq Hqs]%andb_true_iff.
  apply andb_true_iff. auto.
Qed.

Lemma keep_kept p s : all_chars p (Py.keep p s) = true.
Proof.
  induction s as [|a s IH]; [done|]. simpl.
  destruct (p a) eqn:Hp; [|done]. simpl. by rewrite Hp.
Qed.

(** Joining the words of a string keeps a tail without whitespace, and
    what it puts before the tail has the characters of the head that are no
    whitespace, and underscores. *)
Lemma join_split_tail_chars (q : ascii -> bool) h t :
  q "_"%char = true -> (forall c, Py.isspace c = true -> q c = true) ->
  t <> "" -> all_chars (fun c => negb (Py.isspace c)) t = true ->
  exists x, Py.join "_" (Py.split (h +:+ t)) = x +:+ t
            /\ all_chars q x = all_chars q h.
Proof.
  intros Hu Hsp Hne Ht. induction h as [|c h IH].
  - exists "". by rewrite app_nil_l, split_one_word.
  - destruct IH as (x & Hx & Hq). rewrite app_cons.
    assert (Hs : Py.split (h +:+ t) <> []).
    { intros E. rewrite E in Hx. simpl in Hx. symmetry in Hx.
      by apply app_empty_r in Hx. }
    simpl. destruct (Py.isspace c) eqn:Hc.
    { exists x. split; [done|]. by rewrite (Hsp c Hc), Hq. }
    destruct (h +:+ t) as [|c' rest] eqn:E; [done|].
    destruct (Py.isspace c').
    + exists (String c (String "_" x)).
      destruct (Py.split (String c' rest)) as [|w ws] eqn:Ew; [done|].
      change (Py.join "_" (String c "" :: w :: ws))
        with (String c "" +:+ "_" +:+ Py.join "_" (w :: ws)).
      rewrite Hx. split; [by rewrite !app_cons|]. simpl. by rewrite Hu, Hq.
    + destruct (Py.split (String c' rest)) as [|w ws] eqn:Ew; [done|].
      exists (String c x). split; [by rewrite join_cons, Hx, app_cons|].
      simpl. by rewrite Hq.
Qed.

Lemma lstrip_with_all p y t :
  all_chars p y = true -> Py.lstrip_with p (y +:+ t) = Py.lstrip_with p t.
Proof.
  induction y as [|c y IH]; [done|]. intros [Hc Hy]%andb_true_iff.
  rewrite app_cons. cbn [Py.lstrip_with]. rewrite Hc. by apply IH.
Qed.

Lemma lstrip_with_some p y t :
  all_chars p y = false -> exists q, Py.lstrip_with p (y +:+ t) = q +:+ t.
Proof.
  induction y as [|c y IH]; [done|]. rewrite app_cons.
  cbn [Py.lstrip_with all_chars].
  destruct (p c); [exact IH|]. intros _. exists (String c y). by rewrite app_cons.
Qed.

(** A letter, digit or hyphen of the name is one of its normal form. *)
Lemma nfkd_ascii_keeps_solid h :
  all_chars (fun c => negb (solid c)) (nfkd_ascii h) = true ->
  all_chars (fun c => negb (solid c)) h = true.
Proof.
  induction h as [|a h IH]; [done|]. cbn [nfkd_ascii all_chars].
  rewrite all_chars_app. intros [Ha Hh]%andb_true_iff.
  rewrite (IH Hh), andb_true_r.
  destruct (solid a) eqn:Hs; [|done].
  destruct (solid_kept a Hs) as (Hasc & _).
  unfold nfkd_ascii_char in Ha. rewrite Hasc in Ha. cbn [all_chars] in Ha.
  by rewrite Hs in Ha.
Qed.

(** The sanitised form of an accepted name, by what stands before its
    last dot. *)
Lemma secure_filename_by_head h e :
  Py.contains "." e = false -> Py.lower e ∈ ALLOWED_EXTENSIONS ->
  if all_chars (fun c => negb (solid c)) (nfkd_ascii h)
  then secure_filename (h +:+ String "." e) = e
  else exists q, secure_filename (h +:+ String "." e) = q +:+ String "." e.
Proof.
  intros Hdot Hext.
  destruct (allowed_extension_letters _ Hext) as [Hne Hlet].
  assert (Hkept : all_chars kept_char (String "." e) = true).
  { simpl. eapply all_chars_impl; [apply letter_kept|done]. }
  assert (Hpart : forall p, (forall c, kept_char c = true -> p c = true) ->
                            all_chars p (String "." e) = true).
  { intros p Hp. by eapply all_chars_impl; [exact Hp|]. }
  unfold secure_filename.
  rewrite nfkd_ascii_app, (nfkd_ascii_id (String "." e)); cycle 1.
  { apply Hpart. unfold kept_char. intros c. rewrite !andb_true_iff. tauto. }
  rewrite replace_char_app, (replace_char_none _ _ (String "." e)); cycle 1.
  { apply Hpart. unfold kept_char. intros c. rewrite !andb_true_iff. tauto. }
  destruct (join_split_tail_chars (fun c => negb (solid c))
              (Py.replace_char "/" " " (nfkd_ascii h)) (String "." e))
    as (x & -> & Hx); [done| |done| |].
  { intros c Hc. destruct (solid c) eqn:Hs; [|done].
    apply solid_kept in Hs as (_ & Hs & _). congruence. }
  { apply Hpart. unfold kept_char. intros c. rewrite !andb_true_iff. tauto. }
  rewrite all_chars_replace_char in Hx by done.
  rewrite keep_app, (keep_all filename_char (String "." e)); cycle 1.
  { apply Hpart. unfold kept_char. intros c. rewrite !andb_true_iff. tauto. }
  assert (Hy : all_chars (fun c => negb (solid c)) (Py.keep filename_char x)
               = all_chars (fun c => negb (solid c)) (nfkd_ascii h)).
  { rewrite all_chars_keep; [done|]. intros c Hc. unfold solid. by rewrite Hc. }
  unfold Py.strip_chars, Py.strip_with.
  destruct (last_char e) as [cl|] eqn:Hl; [|by apply last_char_none in Hl].
  assert (Hcl : Py.contains cl "._" = false).
  { apply letter_not_stripped. by eapply all_chars_last. }
  destruct (all_chars (fun c => negb (solid c)) (nfkd_ascii h)) eqn:Hh.
  - rewrite lstrip_with_all; cycle 1.
    { eapply all_chars_both; [|exact (keep_kept filename_char x)|exact Hy].
      intros c Hf Hs. apply negb_true_iff in Hs. by apply not_solid_stripped. }
    destruct e as [|c0 e0]; [done|].
    assert (Hc0 : Py.contains c0 "._" = false).
    { apply letter_not_stripped. simpl in Hlet. by apply andb_true_iff in Hlet as [? _]. }
    change (Py.lstrip_with (fun c => Py.contains c "._") (String "." (String c0 e0)))
      with (if Py.contains c0 "._" then Py.lstrip_with (fun c => Py.contains c "._") e0
            else String c0 e0).
    rewrite Hc0. by eapply rstrip_with_id.
  - destruct (lstrip_with_some (fun c => Py.contains c "._")
                (Py.keep filename_char x) (String "." e)) as [q ->].
    { destruct (all_chars (fun c => Py.contains c "._") (Py.keep filename_char x))
        eqn:Hp; [|done].
      rewrite <- Hy. symmetry. eapply all_chars_impl; [|exact Hp].
      intros c Hc. unfold solid. rewrite Hc. by rewrite andb_false_r. }
    exists q. eapply rstrip_with_id; [|exact Hcl].
    rewrite last_char_app by done. simpl. by destruct e.
Qed.

(** X18. For an upload name the allow-list accepts, the sanitised name
    has lost its dot -- and the upload step raises -- exactly when the part
    before the last dot, once normalised (NFKD) and reduced to ASCII, has
    no letter, no digit and no hyphen: nothing but characters that
    [secure_filename] drops or strips.  Otherwise the extension the upload
    step finds is the one the allow-list saw; this is so whenever the part
    before the last dot has an ASCII letter, digit or hyphen. *)
Theorem dot_lost_iff_no_solid_char (h e : string) :
  Py.contains "." e = false ->
  Py.lower e ∈ ALLOWED_EXTENSIONS ->
  allowed_file (h +:+ "." +:+ e) = true
  /\ (Py.rsplit1 "." (secure_filename (h +:+ "." +:+ e)) !! 1%nat = None
      <-> all_chars (fun c => negb (solid c)) (nfkd_ascii h) = true)
  /\ (all_chars (fun c => negb (solid c)) (nfkd_ascii h) = false ->
      Py.rsplit1 "." (secure_filename (h +:+ "." +:+ e)) !! 1%nat = Some e)
  /\ (all_chars (fun c => negb (solid c)) h = false ->
      Py.rsplit1 "." (secure_filename (h +:+ "." +:+ e)) !! 1%nat = Some e).
Proof.
  intros Hdot Hext. split; [apply allowed_file_iff; eauto|].
  pose proof (secure_filename_by_head h e Hdot Hext) as H.
  pose proof (nfkd_ascii_keeps_solid h) as Hk.
  change (h +:+ "." +:+ e) with (h +:+ String "." e).
  destruct (all_chars (fun c => negb (solid c)) (nfkd_ascii h)).
  - rewrite H. unfold Py.rsplit1. rewrite rsplit_last_no_char by done.
    split; [done|]. split; [by intros|]. rewrite Hk by done. by intros.
  - destruct H as [q ->]. unfold Py.rsplit1. rewrite rsplit_last_app by done.
    split; [by split|done].
Qed.

Lemma dot_lost_iff_no_solid_char_witness :
  (Py.rsplit1 "." (secure_filename ("._ /" +:+ "." +:+ "PNG")) !! 1%nat = None
   <-> all_chars (fun c => negb (solid c)) (nfkd_ascii "._ /") = true)
  /\ Py.rsplit1 "." (secure_filename ("my-photo" +:+ "." +:+ "PNG")) !! 1%nat = Some "PNG"
  /\ Py.rsplit1 "." (secure_filename (e_acute +:+ "." +:+ "png")) !! 1%nat = Some "png".
Proof.
  split; [|split].
  - apply (dot_lost_iff_no_solid_char "._ /" "PNG"); [reflexivity|].
    unfold ALLOWED_EXTENSIONS. apply elem_of_cons. by left.
  - apply (dot_lost_iff_no_solid_char "my-photo" "PNG"); [reflexivity| |reflexivity].
    unfold ALLOWED_EXTENSIONS. apply elem_of_cons. by left.
  - assert (Hpng : Py.lower "png" ∈ ALLOWED_EXTENSIONS).
    { unfold ALLOWED_EXTENSIONS. apply elem_of_cons. by left. }
    destruct (dot_lost_iff_no_solid_char e_acute "png" eq_refl Hpng) as (_ & _ & H3 & _).
    apply H3. reflexivity.
Defined.

(** *** The image files of the other characters *)

Lemma upload_step_other_files r cid previous_image st out st1 other ext :
  path_segment cid = true ->
  reference_ok cid previous_image (upload_folder st) ->
  handle_image_upload r cid previous_image st = (out, st1) ->
  other <> cid -> ext ∈ ALLOWED_EXTENSIONS ->
  upload_folder st1 !! (other +:+ "." +:+ ext) = upload_folder st !! (other +:+ "." +:+ ext).
Proof.
  intros Hseg Hprev Hu Hne Hext.
  destruct (handle_image_upload_outcome r cid previous_image st)
    as [[_ H] | [(f & _ & _ & _ & H) | [(f & e & _ & _ & _ & He & H) | [_ H]]]];
    rewrite H in Hu; injection Hu as <- <-; cbn [upload_folder]; try done.
  assert (Hnew : cid +:+ "." +:+ Py.lower e <> other +:+ "." +:+ ext).
  { intros E. by apply image_file_inj in E as [-> _]. }
  destruct (truthy_opt previous_image && _) eqn:Hrep.
  - apply andb_true_iff in Hrep as [Ht _].
    apply truthy_opt_true in Ht as (img0 & -> & _).
    destruct (reference_ok_path_name _ _ _ Hseg Hprev) as (_ & e0 & He0 & _ & Hp).
    cbn [default from_option Datatypes.id]. rewrite Hp.
    rewrite lookup_delete_ne; [by rewrite lookup_insert_ne|].
    intros E. by apply image_file_inj in E as [-> _].
  - by rewrite lookup_insert_ne.
Qed.

(** X19. In directories that satisfy the invariant, a request changes no
    image file of a character other than its target: for every other id and
    every allowed extension, the file [<id>.<extension>] is after the
    request what it was before, present or not, with the same contents. *)
Theorem other_images_untouched
    (q : http_request) (st : state) (other ext : string) :
  store_ok st -> routable q ->
  target q <> Some other ->
  ext ∈ ALLOWED_EXTENSIONS ->
  upload_folder (snd (dispatch q st)) !! (other +:+ "." +:+ ext)
  = upload_folder st !! (other +:+ "." +:+ ext).
Proof.
  intros Hok Hq Ht Hext.
  destruct q as [| | uuid r | cid | cid | cid r | cid]; cbn [dispatch routable target] in *.
  - done.
  - done.
  - assert (other <> uuid) by congruence.
    destruct (create_character_outcome uuid r st)
      as [[_ ->] | [(_ & _ & ->) | (_ & _ & img & st1 & Hu & ->)]]; [done..|].
    cbn [snd upload_folder]. by eapply (upload_step_other_files r uuid None).
  - destruct (data_dir st !! cid) eqn:Hr;
      [by rewrite (view_character_found _ _ _ Hr)
      |rewrite (view_character_missing _ _ Hr); cbn [fst snd];
       first [done | unfold no_record; by destruct (name_too_long _)]].
  - destruct (data_dir st !! cid) eqn:Hr;
      [by rewrite (edit_character_found _ _ _ Hr)
      |rewrite (edit_character_missing _ _ Hr); cbn [fst snd];
       first [done | unfold no_record; by destruct (name_too_long _)]].
  - assert (other <> cid) by congruence.
    destruct (data_dir st !! cid) as [existing|] eqn:He.
    + destruct (Hok cid existing He) as (Hseg & _ & Href).
      destruct (update_character_outcome cid r st existing He)
        as [[_ ->] | [(_ & _ & ->) | (_ & _ & img & st1 & Hu & ->)]]; [done..|].
      cbn [snd upload_folder].
      by eapply (upload_step_other_files r cid (image existing)).
    + rewrite (update_character_missing _ _ _ He); cbn [fst snd];
       first [done | unfold no_record; by destruct (name_too_long _)].
  - assert (other <> cid) by congruence.
    destruct (data_dir st !! cid) as [existing|] eqn:He.
    + destruct (Hok cid existing He) as (Hseg & _ & Href).
      rewrite (delete_character_found cid existing st He). cbn [snd upload_folder].
      destruct (truthy_opt (image existing)) eqn:Htr; [|done].
      apply truthy_opt_true in Htr as (img0 & Hi & _). rewrite Hi in *.
      destruct (reference_ok_path_name _ _ _ Hseg Href) as (_ & e0 & He0 & _ & Hp).
      cbn [default from_option Datatypes.id]. rewrite Hp.
      apply lookup_delete_ne. intros E. by apply image_file_inj in E as [-> _].
    + rewrite (delete_character_missing _ _ He); cbn [fst snd];
       first [done | unfold no_record; by destruct (name_too_long _)].
Qed.

Lemma other_images_untouched_witness :
  let q := POST_create_character "b2" (sample_request "Bob" "bob.png") in
  upload_folder (snd (dispatch q anna_state)) !! ("a1" +:+ "." +:+ "png")
  = upload_folder anna_state !! ("a1" +:+ "." +:+ "png").
Proof.
  apply (other_images_untouched
           (POST_create_character "b2" (sample_request "Bob" "bob.png"))
           anna_state "a1" "png").
  - exact store_ok_anna_state.
  - reflexivity.
  - discriminate.
  - unfold ALLOWED_EXTENSIONS. apply elem_of_cons. by left.
Defined.
